(** * Frame walking over a remote zstd archive

    A shallow embedding of [training/data_streamer.py] (the ranged-fetch
    frame walker) and of [training/datastreamer.py] (the streaming
    alternative), with the properties of the frame-walking engine proved
    over it.

    Offsets travel through the Python code as decimal strings ([str]) and
    are parsed back with [int()] wherever arithmetic is done; the embedding
    keeps that representation.  Every method takes the object [self] and
    talks to the network, so methods are computations in a small state and
    exception monad whose state holds the object, the list of ranged
    requests sent so far and what was printed.

    [find_data_frame] calls itself once per skippable frame; the
    interpreter gives it a bounded number of nested calls and raises
    [RecursionError] beyond.  The [while] loop of [get_frame_size] has no
    such bound. *)

From Stdlib Require Import ZArith List String Ascii Bool Lia.
From Stdlib.Strings Require Import Byte.
From Stdlib Require Import Decimal DecimalString DecimalPos DecimalZ.
Import ListNotations.

Local Open Scope Z_scope.

(** ** Python built-ins used by the code *)

Module Py.

(** [str(n)] for an integer: its decimal digits.  (CPython 3.11 and later
    refuse, with [ValueError], to convert an integer of more than 4300
    digits; here every integer is converted.) *)
Definition str (n : Z) : string := NilZero.string_of_int (Z.to_int n).

(** [int(s)] for a string: an optional minus sign followed by one or more
    decimal digits.  (CPython also accepts surrounding blanks, a plus
    sign and underscores between digits; no string built by the code has
    them, and the embedding treats them as malformed.  CPython 3.11 and
    later also refuse a string of more than 4300 digits; here any number
    of digits is read.)  [None] stands for [ValueError]. *)
Definition int (s : string) : option Z :=
  option_map Z.of_int (NilZero.int_of_string s).

(** [int.from_bytes(bs, byteorder='little')]: any number of bytes, the
    first one least significant; the empty string gives 0. *)
Fixpoint from_bytes_little (bs : list byte) : Z :=
  match bs with
  | [] => 0
  | b :: rest => Z.of_N (Byte.to_N b) + 256 * from_bytes_little rest
  end.

(** Binary digits of a positive number, most significant first. *)
Fixpoint bin_digits (p : positive) : string :=
  match p with
  | xH => "1"
  | xO q => bin_digits q ++ "0"
  | xI q => bin_digits q ++ "1"
  end%string.

(** [bin(n)]: ['0b...'], with the sign in front. *)
Definition bin (n : Z) : string :=
  match n with
  | Z0 => "0b0"
  | Zpos p => "0b" ++ bin_digits p
  | Zneg p => "-0b" ++ bin_digits p
  end%string.

(** [s[-1]]: the last character as a one-character string; [None] stands
    for [IndexError] on the empty string. *)
Fixpoint last_char (s : string) : option string :=
  match s with
  | EmptyString => None
  | String c EmptyString => Some (String c EmptyString)
  | String _ rest => last_char rest
  end.

(** [sys.getrecursionlimit()] as the interpreter sets it; the code never
    changes it.  No chain of nested calls is longer. *)
Definition recursion_limit : nat := 1000.

End Py.

(** ** Exceptions and outcomes *)

Inductive exn : Type :=
| ValueError                   (* int() on a malformed string *)
| IndexError                   (* s[-1] on the empty string *)
| UnboundLocalError            (* a local variable read before assignment *)
| RequestException             (* requests.get failed (timeout, reset, ...) *)
| RecursionError               (* no room left for another nested call *)
| NameError (name : string)
| AttributeError (name : string)
| Exception_ (message : string).  (* raise Exception(message) *)

(** What a call does: it returns, it raises, or a loop in it was still
    running when the embedding's bound on the number of iterations was
    reached. *)
Inductive outcome (A : Type) : Type :=
| Returns (a : A)
| Raises (e : exn)
| OutOfFuel.

Arguments Returns {A} a.
Arguments Raises {A} e.
Arguments OutOfFuel {A}.

(** ** The remote archive *)

(** One [requests.get(url, headers={"Range": "bytes=first-last"})]: the
    header is kept as its two integers, both inclusive. *)
Record request : Type := Range {
  req_url : string;
  first_byte : Z;
  last_byte : Z
}.

(** [requests.get] either raises or gives a response whose [content] is a
    byte string; nothing in the code checks its status or its length. *)
Inductive response : Type :=
| Content (body : list byte)
| TransportError.

(** The remote side: what the n-th request of a run (counted from 0) is
    answered with.  The index lets an answer depend on time, so that a
    range may fail once and succeed when asked again. *)
Definition remote : Type := nat -> request -> response.

(** A remote side that serves one fixed archive and always answers: the
    bytes of the inclusive range that exist, for whatever URL. *)
Definition slice (archive : list byte) (first last : Z) : list byte :=
  firstn (Z.to_nat (last - first + 1)) (skipn (Z.to_nat first) archive).

Definition serve (archive : list byte) : remote :=
  fun _ r => Content (slice archive (first_byte r) (last_byte r)).

(** The same, except that the request of index [n] fails. *)
Definition serve_failing_at (n : nat) (archive : list byte) : remote :=
  fun i r => if Nat.eqb i n then TransportError else serve archive i r.

(** ** training/data_streamer.py *)

Module data_streamer.

(** Modelled from the spec: the persisted resume state
    [{url, current_pos}] that [training.meta_handler.Handler.load]
    returns; the module [training.meta_handler] is not among the
    sources. *)
Record Metadata : Type := {
  md_url : string;
  md_current_pos : Z
}.

(** The attributes of a [DataStreamer] object (the handler object itself,
    [self.meta_handler], is never used again and is left out). *)
Record DataStreamer : Type := {
  FRAME_MAGIC_NUMBER : Z;
  SKIPPABLE_MAGIC_NUMBER : Z;
  metadata : Metadata;
  url : string;
  current_pos : Z
}.

(** [DataStreamer.__init__], given what [self.meta_handler.load()]
    returned. *)
Definition __init__ (loaded : Metadata) : DataStreamer :=
  {| FRAME_MAGIC_NUMBER := 0xFD2FB528;
     SKIPPABLE_MAGIC_NUMBER := 0x184D2A50;
     metadata := loaded;
     url := md_url loaded;
     current_pos := md_current_pos loaded |}.

(** The state a method runs in. *)
Record state : Type := {
  self : DataStreamer;
  sent : list request;       (* the requests issued so far, oldest first *)
  stdout : list string       (* the lines printed so far, oldest first *)
}.

Definition M (A : Type) : Type := state -> outcome A * state.

Definition ret {A} (a : A) : M A := fun st => (Returns a, st).

Definition bind {A B} (c : M A) (k : A -> M B) : M B :=
  fun st =>
    match c st with
    | (Returns a, st') => k a st'
    | (Raises e, st') => (Raises e, st')
    | (OutOfFuel, st') => (OutOfFuel, st')
    end.

Definition raise {A} (e : exn) : M A := fun st => (Raises e, st).

Definition out_of_fuel {A} : M A := fun st => (OutOfFuel, st).

(** Reading an attribute of [self]. *)
Definition attr {A} (f : DataStreamer -> A) : M A :=
  fun st => (Returns (f (self st)), st).

(** A Python operation that raises [e] where the embedding has [None]. *)
Definition or_raise {A} (e : exn) (o : option A) : M A :=
  match o with
  | Some a => ret a
  | None => raise e
  end.

Definition print (line : string) : M unit :=
  fun st =>
    (Returns tt,
     {| self := self st; sent := sent st; stdout := stdout st ++ [line] |}).

(** The state once request [r] has gone out. *)
Definition sending (r : request) (st : state) : state :=
  {| self := self st; sent := sent st ++ [r]; stdout := stdout st |}.

Declare Scope py_scope.
Delimit Scope py_scope with py.
Notation "x <- c ;; k" := (bind c (fun x => k))
  (at level 100, c at next level, right associativity) : py_scope.
Notation "' p <- c ;; k" := (bind c (fun x => let p := x in k))
  (at level 100, p pattern, c at next level, right associativity) : py_scope.
Notation "c ;; k" := (bind c (fun _ => k))
  (at level 100, right associativity) : py_scope.
Local Open Scope py_scope.

Section Methods.

Variable net : remote.

(** [requests.get(url, headers=...).content] for the range
    [first..last]. *)
Definition requests_get (u : string) (first last : Z) : M (list byte) :=
  fun st =>
    let r := Range u first last in
    match net (List.length (sent st)) r with
    | Content body => (Returns body, sending r st)
    | TransportError => (Raises RequestException, sending r st)
    end.

Definition get_n_bytes (start_byte : string) (n_range : Z)
  : M (list byte) :=
  start_byte <- or_raise ValueError (Py.int start_byte) ;;
  (* Range in requests.get() is inclusive, we need to subtract 1. *)
  let end_byte := start_byte + n_range - 1 in
  u <- attr url ;;
  requests_get u start_byte end_byte.

Definition skip_frame (byte_pos : string) : M string :=
  header_start <- or_raise ValueError (Py.int byte_pos) ;;
  let frame_size_pos := Py.str (header_start + 4) in
  frame_size <- get_n_bytes frame_size_pos 4 ;;
  let frame_size := Py.from_bytes_little frame_size in
  let skip_to := header_start + 8 + frame_size in
  ret (Py.str skip_to).

(** [find_data_frame], called when the interpreter has room for [fuel]
    more nested calls of it, this one included ([fuel] is at most
    [Py.recursion_limit], less what is on the stack already and what the
    calls made from inside need).  A call for which no room is left
    raises [RecursionError]; the interpreter raises it somewhere inside
    that call, the embedding on entry. *)
Fixpoint find_data_frame (fuel : nat) (byte_pos : string) : M string :=
  match fuel with
  | O => raise RecursionError
  | S fuel' =>
      magic_number <- get_n_bytes byte_pos 4 ;;
      let magic_number := Py.from_bytes_little magic_number in
      skippable <- attr SKIPPABLE_MAGIC_NUMBER ;;
      if magic_number =? skippable then
        byte_pos <- skip_frame byte_pos ;;
        find_data_frame fuel' byte_pos
      else
        general <- attr FRAME_MAGIC_NUMBER ;;
        if magic_number =? general then ret byte_pos
        else raise (Exception_
                      "Could not find frame magic number in zstd file.")
  end.

Definition check_block_header (byte_pos : string) : M (Z * string) :=
  let block_header_size := 3 in
  block_header <- get_n_bytes byte_pos block_header_size ;;
  let block_header := Py.from_bytes_little block_header in
  is_last_block <- or_raise IndexError (Py.last_char (Py.bin block_header)) ;;
  let block_content_size := Z.shiftr block_header 3 in
  here <- or_raise ValueError (Py.int byte_pos) ;;
  let next_block_pos := here + block_header_size + block_content_size in
  is_last_block <- or_raise ValueError (Py.int is_last_block) ;;
  ret (is_last_block, Py.str next_block_pos).

(** The local variables the loop of [get_frame_size] works on;
    [last_pos] is unbound until the body has run once. *)
Record locals : Type := {
  is_last_block : Z;
  last_pos : option string;
  block_pos : string
}.

(** [while not is_last_block: ...], at most [fuel] iterations. *)
Fixpoint traverse_blocks (fuel : nat) (l : locals) : M locals :=
  if is_last_block l =? 0 then
    match fuel with
    | O => out_of_fuel
    | S fuel' =>
        let last_pos' := block_pos l in
        '(is_last_block', block_pos') <- check_block_header (block_pos l) ;;
        traverse_blocks fuel'
          {| is_last_block := is_last_block';
             last_pos := Some last_pos';
             block_pos := block_pos' |}
    end
  else ret l.

Definition get_frame_size (fuel : nat) (byte_pos : string) : M Z :=
  let frame_header_size := 6 in
  start <- or_raise ValueError (Py.int byte_pos) ;;
  let block_pos := Py.str (start + frame_header_size) in
  (* Traverse all blocks till we find last one *)
  l <- traverse_blocks fuel
         {| is_last_block := 0; last_pos := None; block_pos := block_pos |} ;;
  (* Frame size is the last position minus the initial position
     +4 bytes for checksum after the last block *)
  last_pos <- or_raise UnboundLocalError (last_pos l) ;;
  last_pos <- or_raise ValueError (Py.int last_pos) ;;
  start <- or_raise ValueError (Py.int byte_pos) ;;
  let frame_size := last_pos - start + 4 in
  ret frame_size.

(** [download_frame] returns [None], which is [tt] here.  [fuel] bounds
    both walks: the nested calls [find_data_frame] has room for and the
    iterations of the loop of [get_frame_size]. *)
Definition download_frame (fuel : nat) (byte_pos : string) : M unit :=
  byte_pos <- find_data_frame fuel byte_pos ;;
  frame_size <- get_frame_size fuel byte_pos ;;
  print ("frame_size:  " ++ Py.str frame_size)%string ;;
  ret tt.

End Methods.

(** The state right after [data_streamer = DataStreamer()]. *)
Definition fresh (loaded : Metadata) : state :=
  {| self := __init__ loaded; sent := []; stdout := [] |}.

End data_streamer.

(** ** training/datastreamer.py *)

Module datastreamer.

(** What a name is bound to once the module has been loaded. *)
Inductive binding : Type :=
| Imported (module : string)
| ClassObject (name : string)
| FunctionObject (name : string).

Definition namespace : Type := list (string * binding).

Fixpoint lookup (name : string) (ns : namespace) : option binding :=
  match ns with
  | [] => None
  | (n, b) :: rest => if String.eqb n name then Some b else lookup name rest
  end.

(** The module's global names: its four imports ([import chess.pgn] binds
    [chess]) and its one class.  The built-in names, searched after
    these, are the interpreter's and hold no [url]. *)
Definition module_globals : namespace :=
  [ ("requests", Imported "requests");
    ("zstd", Imported "zstandard");
    ("io", Imported "io");
    ("chess", Imported "chess");
    ("DataStreamer", ClassObject "DataStreamer") ]%string.

(** The names the class body defines. *)
Definition class_namespace : namespace :=
  [ ("__init__", FunctionObject "__init__");
    ("new_stream", FunctionObject "new_stream");
    ("read_game", FunctionObject "read_game");
    ("tell", FunctionObject "tell") ]%string.

(** Reading a global name inside a function body. *)
Definition load_global (name : string) : outcome binding :=
  match lookup name module_globals with
  | Some b => Returns b
  | None => Raises (NameError name)
  end.

(** Reading [self.name] on an instance that has no attribute of its own
    yet: the class is searched. *)
Definition load_method (name : string) : outcome binding :=
  match lookup name class_namespace with
  | Some b => Returns b
  | None => Raises (AttributeError name)
  end.

Definition and_then {A B} (c : outcome A) (k : A -> outcome B) : outcome B :=
  match c with
  | Returns a => k a
  | Raises e => Raises e
  | OutOfFuel => OutOfFuel
  end.

Section Construction.

(** The objects the libraries hand back (an HTTP response, a text
    reader) and the library calls that build them. *)
Variable handle : Type.
(** [requests.get(url, stream=True)], then the decompressor's
    [stream_reader] and [io.TextIOWrapper] around it. *)
Variable open_stream : binding -> binding -> Z -> outcome (handle * handle).
(** Calling a method found on the object. *)
Variable call : binding -> Z -> outcome (handle * handle).

Definition new_stream (buffer_size : Z) : outcome (handle * handle) :=
  and_then (load_global "requests") (fun requests =>
  and_then (load_global "url") (fun url =>
  open_stream requests url buffer_size)).

(** [DataStreamer.__init__(url, resume, buffer_size)]: the result is
    the pair [(self.response, self.pgn)] the constructor has assigned,
    if any.  The parameter [url] is never read. *)
Definition __init__ (url : string) (resume : bool) (buffer_size : Z)
  : outcome (option (handle * handle)) :=
  and_then
    (if negb resume
     then and_then (new_stream buffer_size) (fun s => Returns (Some s))
     else Returns None)
    (fun assigned =>
       if resume
       then and_then (load_method "resume_stream") (fun resume_stream =>
            and_then (call resume_stream buffer_size) (fun s =>
            Returns (Some s)))
       else Returns assigned).

End Construction.

End datastreamer.

(** ** Vocabulary of the statements *)

Import data_streamer.

(** The digit a binary numeral ends with. *)
Definition parity_digit (n : Z) : ascii := if Z.odd n then "1" else "0".

(** The state once the requests [rs] have gone out, in that order. *)
Definition sent_more (rs : list request) (st : state) : state :=
  {| self := self st; sent := sent st ++ rs; stdout := stdout st |}.

(** A computation leaves the component [f] of the state alone, whatever
    its outcome. *)
Definition preserves {X A : Type} (f : state -> X) (c : M A) : Prop :=
  forall st, f (snd (c st)) = f st.

(** A computation only ever adds to the list of requests. *)
Definition only_sends {A : Type} (c : M A) : Prop :=
  forall st, exists more, sent (snd (c st)) = sent st ++ more.

(** The remote side answers the [n] bytes from [first] with [body],
    whenever it is asked. *)
Definition answers (net : remote) (u : string) (first n : Z)
  (body : list byte) : Prop :=
  forall i, net i (Range u first (first + n - 1)) = Content body.

(** [skippable_chain net u offset sizes data]: at [offset] starts a run of
    skippable frames whose declared sizes are [sizes], each one followed
    directly by the next, and after the last of them, at [data], a frame
    with the data-frame magic. *)
Inductive skippable_chain (net : remote) (u : string)
  : Z -> list Z -> Z -> Prop :=
| chain_data (offset : Z) (magic : list byte) :
    answers net u offset 4 magic ->
    Py.from_bytes_little magic = 0xFD2FB528 ->
    skippable_chain net u offset [] offset
| chain_skip (offset : Z) (magic size : list byte) (sizes : list Z) (data : Z) :
    answers net u offset 4 magic ->
    Py.from_bytes_little magic = 0x184D2A50 ->
    answers net u (offset + 4) 4 size ->
    skippable_chain net u (offset + 8 + Py.from_bytes_little size) sizes data ->
    skippable_chain net u offset (Py.from_bytes_little size :: sizes) data.

(** Where the frames of such a chain start, the data frame included. *)
Fixpoint frame_offsets (offset : Z) (sizes : list Z) : list Z :=
  match sizes with
  | [] => [offset]
  | size :: rest => offset :: frame_offsets (offset + 8 + size) rest
  end.

(** The requests that walking the chain takes: per skippable frame one for
    its magic number and one for its size, then one for the magic number
    of the data frame. *)
Fixpoint chain_requests (u : string) (offset : Z) (sizes : list Z)
  : list request :=
  match sizes with
  | [] => [Range u offset (offset + 4 - 1)]
  | size :: rest =>
      Range u offset (offset + 4 - 1)
      :: Range u (offset + 4) (offset + 4 + 4 - 1)
      :: chain_requests u (offset + 8 + size) rest
  end.

(** A request reads a magic number when it starts where a frame starts. *)
Definition reads_magic (frames : list Z) (r : request) : bool :=
  existsb (Z.eqb (first_byte r)) frames.

(** [block_chain net u offset sizes]: at [offset] starts a run of block
    headers, each [3 + content size] bytes after the one before, whose
    content sizes are [sizes]; the last one, and only it, has its least
    significant bit set. *)
Inductive block_chain (net : remote) (u : string) : Z -> list Z -> Prop :=
| chain_last (offset : Z) (header : list byte) :
    answers net u offset 3 header ->
    Z.land (Py.from_bytes_little header) 1 = 1 ->
    block_chain net u offset [Z.shiftr (Py.from_bytes_little header) 3]
| chain_more (offset : Z) (header : list byte) (sizes : list Z) :
    answers net u offset 3 header ->
    Z.land (Py.from_bytes_little header) 1 = 0 ->
    block_chain net u
      (offset + 3 + Z.shiftr (Py.from_bytes_little header) 3) sizes ->
    block_chain net u offset (Z.shiftr (Py.from_bytes_little header) 3 :: sizes).

(** Where the blocks of such a chain start. *)
Fixpoint block_offsets (offset : Z) (sizes : list Z) : list Z :=
  match sizes with
  | [] => []
  | size :: rest => offset :: block_offsets (offset + 3 + size) rest
  end.

(** Bytes taken by blocks of the given content sizes, headers included. *)
Definition blocks_span (sizes : list Z) : Z :=
  fold_right (fun size total => 3 + size + total) 0 sizes.

(** Each element is at least [gap] more than the one before. *)
Fixpoint spaced (gap : Z) (l : list Z) : Prop :=
  match l with
  | a :: (b :: _) as rest => a + gap <= b /\ spaced gap rest
  | _ => True
  end.

(** *** Archives used as concrete inputs *)

(** A data frame with one block: the magic number and two more header
    bytes, the header of a last block of content size 100
    ([100 * 8 + 1 = 0x000321]), its content, and a checksum. *)
Definition one_block_frame : list byte :=
  [x28; xb5; x2f; xfd; x00; x00] ++ [x21; x03; x00]
  ++ repeat x00 100 ++ [x00; x00; x00; x00].

(** A data frame with two blocks, of content sizes 5 and 2. *)
Definition two_block_frame : list byte :=
  [x28; xb5; x2f; xfd; x00; x00] ++ [x28; x00; x00] ++ repeat x00 5
  ++ [x11; x00; x00] ++ repeat x00 2 ++ [x00; x00; x00; x00].

(** A skippable frame of declared size 10 in front of [one_block_frame]. *)
Definition skippable_then_frame : list byte :=
  [x50; x2a; x4d; x18; x0a; x00; x00; x00] ++ repeat x00 10
  ++ one_block_frame.

(** A skippable frame that declares no content. *)
Definition empty_skippable_frame : list byte :=
  [x50; x2a; x4d; x18; x00; x00; x00; x00].

(** [k] such frames, one after the other, in front of [rest]. *)
Fixpoint skippable_frames (k : nat) (rest : list byte) : list byte :=
  match k with
  | O => rest
  | S k' => empty_skippable_frame ++ skippable_frames k' rest
  end.

(** As many skippable frames as the interpreter allows nested calls, in
    front of [one_block_frame]: 8000 bytes, then the data frame. *)
Definition long_chain : list byte :=
  skippable_frames Py.recursion_limit one_block_frame.

(** Four bytes that share three bytes with the data-frame magic. *)
Definition near_magic : list byte := [xfd; xb5; x2f; xfd].

Definition sample_metadata : Metadata :=
  {| md_url := "https://example.org/archive.pgn.zst"; md_current_pos := 0 |}.

(** *** Vocabulary of the properties of whole runs *)

(** The module's last statements: [data_streamer = DataStreamer()]
    followed by [data_streamer.download_frame('0')]. *)
Definition script (net : remote) (fuel : nat) (loaded : Metadata)
  : outcome unit * state :=
  download_frame net fuel "0" (fresh loaded).

(** A request to [u] for exactly [n] bytes. *)
Definition asks (u : string) (n : Z) (r : request) : Prop :=
  req_url r = u /\ last_byte r = first_byte r + n - 1.

(** No request starts below [low], and each starts beyond the one before
    it. *)
Fixpoint ascending_from (low : Z) (rs : list request) : Prop :=
  match rs with
  | [] => True
  | r :: rest => low <= first_byte r /\ ascending_from (first_byte r + 1) rest
  end.

(** Each of the requests [rs], sent from index [base] on, was answered
    with content. *)
Fixpoint answered (net : remote) (base : nat) (rs : list request) : Prop :=
  match rs with
  | [] => True
  | r :: rest =>
      (exists body, net base r = Content body) /\ answered net (S base) rest
  end.

(** Two states that differ at most in what the metadata file held besides
    the URL: the saved position and the record as a whole. *)
Definition same_but_position (st1 st2 : state) : Prop :=
  url (self st1) = url (self st2)
  /\ FRAME_MAGIC_NUMBER (self st1) = FRAME_MAGIC_NUMBER (self st2)
  /\ SKIPPABLE_MAGIC_NUMBER (self st1) = SKIPPABLE_MAGIC_NUMBER (self st2)
  /\ sent st1 = sent st2
  /\ stdout st1 = stdout st2.

(** A computation whose outcome, requests and output do not depend on the
    saved position. *)
Definition blind {A : Type} (c : M A) : Prop :=
  forall st1 st2,
    same_but_position st1 st2 ->
    fst (c st1) = fst (c st2)
    /\ same_but_position (snd (c st1)) (snd (c st2)).

(** A skippable frame of declared size 10, then a data frame with blocks
    of content sizes 5 and 2. *)
Definition skippable_then_two_blocks : list byte :=
  [x50; x2a; x4d; x18; x0a; x00; x00; x00] ++ repeat x00 10
  ++ two_block_frame.

(** A remote side that answers every request with three zero bytes. *)
Definition all_zero : remote := fun _ _ => Content [x00; x00; x00].

(** ** Facts about the built-ins *)

Section BuiltinFacts.

(** [int(str(n))] is [n]. *)
Lemma int_str (n : Z) : Py.int (Py.str n) = Some n.
Proof.
  unfold Py.int, Py.str.
  rewrite NilZero.isi.
  - simpl. now rewrite DecimalZ.of_to.
  - destruct n; simpl; try discriminate.
    intros [= H]. now apply (DecimalPos.Unsigned.to_uint_nonnil p).
  - destruct n; simpl; try discriminate.
    intros [= H]. now apply (DecimalPos.Unsigned.to_uint_nonnil p).
Qed.

Lemma from_bytes_little_nonneg (bs : list byte) :
  0 <= Py.from_bytes_little bs.
Proof.
  induction bs as [|b bs IH]; cbn [Py.from_bytes_little]; [lia|].
  pose proof (N2Z.is_nonneg (Byte.to_N b)). lia.
Qed.

Lemma string_app_assoc (a b c : string) :
  ((a ++ b) ++ c = a ++ (b ++ c))%string.
Proof. induction a as [|x a IH]; simpl; [reflexivity | now rewrite IH]. Qed.

Lemma last_char_snoc (s : string) (c : ascii) :
  Py.last_char (s ++ String c "") = Some (String c "").
Proof.
  induction s as [|a s IH]; [reflexivity|].
  simpl. destruct (s ++ String c "")%string eqn:E; [|exact IH].
  destruct s; discriminate.
Qed.

Lemma bin_digits_snoc (p : positive) :
  exists s, Py.bin_digits p = (s ++ String (parity_digit (Zpos p)) "")%string.
Proof.
  destruct p as [q|q|].
  - now exists (Py.bin_digits q).
  - now exists (Py.bin_digits q).
  - now exists ""%string.
Qed.

Lemma last_char_bin (n : Z) :
  Py.last_char (Py.bin n) = Some (String (parity_digit n) "").
Proof.
  destruct n as [|p|p]; [reflexivity| |].
  - destruct (bin_digits_snoc p) as [s Hs]. unfold Py.bin. rewrite Hs.
    rewrite <- string_app_assoc. apply last_char_snoc.
  - destruct (bin_digits_snoc p) as [s Hs]. unfold Py.bin. rewrite Hs.
    rewrite <- string_app_assoc.
    replace (parity_digit (Z.neg p)) with (parity_digit (Z.pos p))
      by (now destruct p).
    apply last_char_snoc.
Qed.

(** [int(bin(h)[-1])] is the least significant bit of [h]. *)
Lemma int_last_bin (h : Z) :
  0 <= h ->
  exists c, Py.last_char (Py.bin h) = Some c /\ Py.int c = Some (Z.land h 1).
Proof.
  intros Hh. exists (String (parity_digit h) ""). split.
  - apply last_char_bin.
  - destruct h as [|p|p]; [reflexivity| |now elim Hh].
    destruct p; reflexivity.
Qed.

End BuiltinFacts.

(** ** Running computations step by step *)

Section Runs.

Variable net : remote.

Lemma bind_returns {A B} (c : M A) (k : A -> M B) st a st' :
  c st = (Returns a, st') -> bind c k st = k a st'.
Proof. intros H. unfold bind. now rewrite H. Qed.

Lemma bind_raises {A B} (c : M A) (k : A -> M B) st e st' :
  c st = (Raises e, st') -> bind c k st = (Raises e, st').
Proof. intros H. unfold bind. now rewrite H. Qed.

Lemma bind_ret {A B} (a : A) (k : A -> M B) st : bind (ret a) k st = k a st.
Proof. reflexivity. Qed.

Lemma sending_one r st : sending r st = sent_more [r] st.
Proof. reflexivity. Qed.

Lemma sent_more_nil st : sent_more [] st = st.
Proof. destruct st. unfold sent_more. simpl. now rewrite app_nil_r. Qed.

Lemma sent_more_more rs rs' st :
  sent_more rs' (sent_more rs st) = sent_more (rs ++ rs') st.
Proof. unfold sent_more. simpl. now rewrite app_assoc. Qed.

Lemma requests_get_content u first last st body :
  net (List.length (sent st)) (Range u first last) = Content body ->
  requests_get net u first last st
  = (Returns body, sent_more [Range u first last] st).
Proof. intros H. unfold requests_get. now rewrite H. Qed.

Lemma requests_get_error u first last st :
  net (List.length (sent st)) (Range u first last) = TransportError ->
  requests_get net u first last st
  = (Raises RequestException, sent_more [Range u first last] st).
Proof. intros H. unfold requests_get. now rewrite H. Qed.

Lemma get_n_bytes_parsed start_byte n n_range st :
  Py.int start_byte = Some n ->
  get_n_bytes net start_byte n_range st
  = requests_get net (url (self st)) n (n + n_range - 1) st.
Proof. intros H. unfold get_n_bytes, bind. now rewrite H. Qed.

Lemma get_n_bytes_content start_byte n n_range st body :
  Py.int start_byte = Some n ->
  net (List.length (sent st)) (Range (url (self st)) n (n + n_range - 1))
  = Content body ->
  get_n_bytes net start_byte n_range st
  = (Returns body, sent_more [Range (url (self st)) n (n + n_range - 1)] st).
Proof.
  intros Hn Hnet. rewrite (get_n_bytes_parsed _ _ _ _ Hn).
  now apply requests_get_content.
Qed.

(** [skip_frame] on a parsable offset whose size field is served. *)
Lemma skip_frame_run byte_pos offset size st :
  Py.int byte_pos = Some offset ->
  net (List.length (sent st))
      (Range (url (self st)) (offset + 4) (offset + 4 + 4 - 1))
  = Content size ->
  skip_frame net byte_pos st
  = (Returns (Py.str (offset + 8 + Py.from_bytes_little size)),
     sent_more [Range (url (self st)) (offset + 4) (offset + 4 + 4 - 1)] st).
Proof.
  intros Hpos Hnet. unfold skip_frame. unfold bind at 1. rewrite Hpos.
  cbn [or_raise ret].
  now rewrite (bind_returns _ _ _ _ _
                 (get_n_bytes_content _ _ _ _ _ (int_str _) Hnet)).
Qed.

(** [check_block_header] on a parsable offset whose header is served. *)
Lemma check_block_header_run byte_pos offset header st :
  Py.int byte_pos = Some offset ->
  net (List.length (sent st)) (Range (url (self st)) offset (offset + 3 - 1))
  = Content header ->
  check_block_header net byte_pos st
  = (Returns (Z.land (Py.from_bytes_little header) 1,
              Py.str (offset + 3 + Z.shiftr (Py.from_bytes_little header) 3)),
     sent_more [Range (url (self st)) offset (offset + 3 - 1)] st).
Proof.
  intros Hpos Hnet. unfold check_block_header.
  rewrite (bind_returns _ _ _ _ _
             (get_n_bytes_content _ _ _ _ _ Hpos Hnet)).
  destruct (int_last_bin _ (from_bytes_little_nonneg header))
    as (digit & Hdigit & Hbit).
  unfold bind. rewrite Hdigit. cbn [or_raise ret].
  rewrite Hpos. cbn [or_raise ret]. rewrite Hbit. reflexivity.
Qed.

End Runs.

(** ** What the methods leave alone *)

Section Footprint.

Variable net : remote.

Section Component.

Context {X : Type} (f : state -> X).
Hypothesis f_sending : forall r st, f (sending r st) = f st.

Lemma preserves_ret {A} (a : A) : preserves f (ret a).
Proof. now intros st. Qed.

Lemma preserves_raise {A} e : preserves f (@raise A e).
Proof. now intros st. Qed.

Lemma preserves_out_of_fuel {A} : preserves f (@out_of_fuel A).
Proof. now intros st. Qed.

Lemma preserves_attr {A} (g : DataStreamer -> A) : preserves f (attr g).
Proof. now intros st. Qed.

Lemma preserves_or_raise {A} e (o : option A) : preserves f (or_raise e o).
Proof. destruct o; [apply preserves_ret | apply preserves_raise]. Qed.

Lemma preserves_bind {A B} (c : M A) (k : A -> M B) :
  preserves f c -> (forall a, preserves f (k a)) -> preserves f (bind c k).
Proof.
  intros Hc Hk st. unfold bind. specialize (Hc st).
  destruct (c st) as [[a|e|] st1]; simpl in *; [|assumption..].
  now rewrite Hk.
Qed.

Lemma preserves_requests_get u first last :
  preserves f (requests_get net u first last).
Proof.
  intros st. unfold requests_get.
  destruct (net _ _); simpl; apply f_sending.
Qed.

Ltac step :=
  first [ apply preserves_ret | apply preserves_raise
        | apply preserves_out_of_fuel | apply preserves_attr
        | apply preserves_or_raise | apply preserves_requests_get
        | match goal with H : forall _, preserves _ _ |- _ => apply H end
        | match goal with
          | H : forall _ _, preserves _ _ |- _ => apply H
          end
        | apply preserves_bind; [|intros ?]
        | match goal with
          | |- preserves _ (if ?b then _ else _) => destruct b
          | |- preserves _ (let '(_, _) := ?p in _) => destruct p
          end ].

Lemma preserves_get_n_bytes start_byte n_range :
  preserves f (get_n_bytes net start_byte n_range).
Proof. unfold get_n_bytes. repeat step. Qed.

Lemma preserves_skip_frame byte_pos : preserves f (skip_frame net byte_pos).
Proof.
  unfold skip_frame. pose proof preserves_get_n_bytes. repeat step.
Qed.

Lemma preserves_find_data_frame fuel byte_pos :
  preserves f (find_data_frame net fuel byte_pos).
Proof.
  revert byte_pos. induction fuel as [|fuel IH]; intros byte_pos; simpl.
  - apply preserves_raise.
  - pose proof preserves_get_n_bytes. pose proof preserves_skip_frame.
    repeat step.
Qed.

Lemma preserves_check_block_header byte_pos :
  preserves f (check_block_header net byte_pos).
Proof.
  unfold check_block_header. pose proof preserves_get_n_bytes.
  repeat step.
Qed.

Lemma preserves_traverse_blocks fuel l :
  preserves f (traverse_blocks net fuel l).
Proof.
  revert l. induction fuel as [|fuel IH]; intros l; simpl.
  - repeat step.
  - destruct (is_last_block l =? 0); [|apply preserves_ret].
    apply preserves_bind; [apply preserves_check_block_header|].
    intros [is_last next]. apply IH.
Qed.

Lemma preserves_get_frame_size fuel byte_pos :
  preserves f (get_frame_size net fuel byte_pos).
Proof.
  unfold get_frame_size. pose proof preserves_traverse_blocks.
  repeat step.
Qed.

End Component.

(** No method touches the object. *)
Lemma download_frame_keeps_self fuel byte_pos :
  preserves self (download_frame net fuel byte_pos).
Proof.
  unfold download_frame.
  apply preserves_bind; [now apply preserves_find_data_frame|intros start].
  apply preserves_bind; [now apply preserves_get_frame_size|intros size].
  apply preserves_bind; [now intros st|intros _].
  apply preserves_ret.
Qed.

End Footprint.

(** ** Requests are only ever added *)

Section Sending.

Variable net : remote.

Lemma only_sends_ret {A} (a : A) : only_sends (ret a).
Proof. intros st. exists []. simpl. now rewrite app_nil_r. Qed.

Lemma only_sends_raise {A} e : only_sends (@raise A e).
Proof. intros st. exists []. simpl. now rewrite app_nil_r. Qed.

Lemma only_sends_out_of_fuel {A} : only_sends (@out_of_fuel A).
Proof. intros st. exists []. simpl. now rewrite app_nil_r. Qed.

Lemma only_sends_attr {A} (g : DataStreamer -> A) : only_sends (attr g).
Proof. intros st. exists []. simpl. now rewrite app_nil_r. Qed.

Lemma only_sends_or_raise {A} e (o : option A) : only_sends (or_raise e o).
Proof. destruct o; [apply only_sends_ret | apply only_sends_raise]. Qed.

Lemma only_sends_bind {A B} (c : M A) (k : A -> M B) :
  only_sends c -> (forall a, only_sends (k a)) -> only_sends (bind c k).
Proof.
  intros Hc Hk st. unfold bind. destruct (Hc st) as [more Hmore].
  destruct (c st) as [[a|e|] st1]; simpl in *; [|now exists more..].
  destruct (Hk a st1) as [more' Hmore']. exists (more ++ more').
  now rewrite Hmore', Hmore, app_assoc.
Qed.

Lemma only_sends_requests_get u first last :
  only_sends (requests_get net u first last).
Proof.
  intros st. unfold requests_get. exists [Range u first last].
  now destruct (net _ _).
Qed.

Ltac step :=
  first [ apply only_sends_ret | apply only_sends_raise
        | apply only_sends_out_of_fuel | apply only_sends_attr
        | apply only_sends_or_raise | apply only_sends_requests_get
        | match goal with H : forall _, only_sends _ |- _ => apply H end
        | match goal with H : forall _ _, only_sends _ |- _ => apply H end
        | apply only_sends_bind; [|intros ?]
        | match goal with
          | |- only_sends (if ?b then _ else _) => destruct b
          end ].

Lemma only_sends_get_n_bytes start_byte n_range :
  only_sends (get_n_bytes net start_byte n_range).
Proof. unfold get_n_bytes. repeat step. Qed.

Lemma only_sends_skip_frame byte_pos : only_sends (skip_frame net byte_pos).
Proof. unfold skip_frame. pose proof only_sends_get_n_bytes. repeat step. Qed.

Lemma only_sends_find_data_frame fuel byte_pos :
  only_sends (find_data_frame net fuel byte_pos).
Proof.
  revert byte_pos. induction fuel as [|fuel IH]; intros byte_pos; simpl.
  - apply only_sends_raise.
  - pose proof only_sends_get_n_bytes. pose proof only_sends_skip_frame.
    repeat step.
Qed.

(** A call of [find_data_frame] that may run at all first asks for the
    four bytes at its offset. *)
Lemma find_data_frame_first_request fuel byte_pos offset st :
  Py.int byte_pos = Some offset ->
  exists more,
    sent (snd (find_data_frame net (S fuel) byte_pos st))
    = sent st ++ Range (url (self st)) offset (offset + 4 - 1) :: more.
Proof.
  intros Hpos. cbn [find_data_frame]. unfold bind at 1.
  rewrite (get_n_bytes_parsed net _ _ _ _ Hpos).
  assert (Hrest : forall magic,
    only_sends
      (bind (attr SKIPPABLE_MAGIC_NUMBER) (fun skippable =>
         if Py.from_bytes_little magic =? skippable
         then bind (skip_frame net byte_pos) (find_data_frame net fuel)
         else bind (attr FRAME_MAGIC_NUMBER) (fun general =>
                if Py.from_bytes_little magic =? general
                then ret byte_pos
                else raise (Exception_
                  "Could not find frame magic number in zstd file."))))).
  { intros magic. pose proof only_sends_skip_frame.
    pose proof only_sends_find_data_frame. repeat step. }
  unfold requests_get.
  destruct (net _ _) as [magic|].
  - destruct (Hrest magic (sending (Range (url (self st)) offset
                                      (offset + 4 - 1)) st)) as [more Hmore].
    exists more.
    transitivity (sent (sending (Range (url (self st)) offset
                                   (offset + 4 - 1)) st) ++ more).
    + exact Hmore.
    + simpl. now rewrite <- app_assoc.
  - exists []. reflexivity.
Qed.

End Sending.

(** ** Locating frames *)

Section Locating.

Variable net : remote.

(** One call of [find_data_frame] whose magic number is served. *)
Lemma find_data_frame_step fuel byte_pos offset magic loaded st :
  self st = __init__ loaded ->
  Py.int byte_pos = Some offset ->
  net (List.length (sent st)) (Range (md_url loaded) offset (offset + 4 - 1))
  = Content magic ->
  find_data_frame net (S fuel) byte_pos st
  = if Py.from_bytes_little magic =? 0x184D2A50
    then bind (skip_frame net byte_pos) (find_data_frame net fuel)
           (sent_more [Range (md_url loaded) offset (offset + 4 - 1)] st)
    else if Py.from_bytes_little magic =? 0xFD2FB528
    then (Returns byte_pos,
          sent_more [Range (md_url loaded) offset (offset + 4 - 1)] st)
    else (Raises (Exception_
                    "Could not find frame magic number in zstd file."),
          sent_more [Range (md_url loaded) offset (offset + 4 - 1)] st).
Proof.
  intros Hself Hpos Hnet.
  assert (Hurl : url (self st) = md_url loaded) by now rewrite Hself.
  rewrite <- Hurl in *.
  cbn [find_data_frame].
  rewrite (bind_returns _ _ _ _ _
             (get_n_bytes_content net _ _ _ _ _ Hpos Hnet)).
  unfold bind at 1, attr at 1. cbn [self sent_more]. rewrite Hself.
  cbn [SKIPPABLE_MAGIC_NUMBER __init__].
  destruct (Py.from_bytes_little magic =? 0x184D2A50); [reflexivity|].
  unfold bind, attr. cbn [self sent_more]. rewrite Hself.
  cbn [FRAME_MAGIC_NUMBER __init__].
  now destruct (Py.from_bytes_little magic =? 0xFD2FB528).
Qed.

End Locating.

(** C4 -- [check_block_header] at a parsable offset, when the three bytes
    asked for come back as [header] (a byte string of whatever length, the
    three-byte one included): with [h] the little-endian value of
    [header], it returns the flag [h & 1] and, as a string, the offset
    [offset + 3 + (h >> 3)], having sent that one request. *)
Theorem check_block_header_decodes
  (net : remote) (byte_pos : string) (offset : Z) (header : list byte)
  (st : state) :
  Py.int byte_pos = Some offset ->
  net (List.length (sent st)) (Range (url (self st)) offset (offset + 2))
  = Content header ->
  check_block_header net byte_pos st
  = (Returns (Z.land (Py.from_bytes_little header) 1,
              Py.str (offset + 3 + Z.shiftr (Py.from_bytes_little header) 3)),
     sent_more [Range (url (self st)) offset (offset + 2)] st).
Proof.
  intros Hpos Hnet.
  replace (offset + 2) with (offset + 3 - 1) in * by lia.
  now apply check_block_header_run.
Qed.

Lemma check_block_header_decodes_witness :
  check_block_header (serve one_block_frame) "6" (fresh sample_metadata)
  = (Returns (1, "109"%string),
     sent_more [Range (md_url sample_metadata) 6 8] (fresh sample_metadata)).
Proof.
  apply (check_block_header_decodes (serve one_block_frame) "6" 6
           [x21; x03; x00] (fresh sample_metadata)); reflexivity.
Defined.

(** C5 -- when the four bytes at the offset decode to neither magic
    number, [find_data_frame] raises its exception, after that single
    request; the comparison is on the whole 32-bit value. *)
Theorem find_data_frame_rejects_other_magic
  (net : remote) (fuel : nat) (byte_pos : string) (offset : Z)
  (magic : list byte) (loaded : Metadata) (st : state) :
  self st = __init__ loaded ->
  Py.int byte_pos = Some offset ->
  net (List.length (sent st)) (Range (md_url loaded) offset (offset + 3))
  = Content magic ->
  Py.from_bytes_little magic <> 0xFD2FB528 ->
  Py.from_bytes_little magic <> 0x184D2A50 ->
  find_data_frame net (S fuel) byte_pos st
  = (Raises (Exception_ "Could not find frame magic number in zstd file."),
     sent_more [Range (md_url loaded) offset (offset + 3)] st).
Proof.
  intros Hself Hpos Hnet Hdata Hskip.
  replace (offset + 3) with (offset + 4 - 1) in * by lia.
  rewrite (find_data_frame_step net fuel _ _ _ _ _ Hself Hpos Hnet).
  destruct (Z.eqb_spec (Py.from_bytes_little magic) 0x184D2A50); [easy|].
  now destruct (Z.eqb_spec (Py.from_bytes_little magic) 0xFD2FB528).
Qed.

Lemma find_data_frame_rejects_other_magic_witness :
  Py.from_bytes_little near_magic = 0xFD2FB5FD
  /\ find_data_frame (serve near_magic) 1 "0" (fresh sample_metadata)
     = (Raises (Exception_ "Could not find frame magic number in zstd file."),
        sent_more [Range (md_url sample_metadata) 0 3] (fresh sample_metadata)).
Proof.
  split; [reflexivity|].
  apply (find_data_frame_rejects_other_magic (serve near_magic) 0 "0" 0
           near_magic sample_metadata (fresh sample_metadata));
    try reflexivity; vm_compute; discriminate.
Defined.

Section Skipping.

Variable net : remote.

(** A call of [find_data_frame] on a skippable frame whose magic number
    and size are served continues at the offset [skip_frame] returns. *)
Lemma find_data_frame_skips fuel byte_pos offset magic size loaded st :
  self st = __init__ loaded ->
  Py.int byte_pos = Some offset ->
  net (List.length (sent st)) (Range (md_url loaded) offset (offset + 4 - 1))
  = Content magic ->
  Py.from_bytes_little magic = 0x184D2A50 ->
  net (S (List.length (sent st)))
      (Range (md_url loaded) (offset + 4) (offset + 4 + 4 - 1))
  = Content size ->
  skip_frame net byte_pos
    (sent_more [Range (md_url loaded) offset (offset + 4 - 1)] st)
  = (Returns (Py.str (offset + 8 + Py.from_bytes_little size)),
     sent_more [Range (md_url loaded) offset (offset + 4 - 1);
                Range (md_url loaded) (offset + 4) (offset + 4 + 4 - 1)] st)
  /\ find_data_frame net (S fuel) byte_pos st
     = find_data_frame net fuel
         (Py.str (offset + 8 + Py.from_bytes_little size))
         (sent_more [Range (md_url loaded) offset (offset + 4 - 1);
                     Range (md_url loaded) (offset + 4) (offset + 4 + 4 - 1)]
            st).
Proof.
  intros Hself Hpos Hmagic Hskippable Hsize.
  assert (Hskip :
    skip_frame net byte_pos
      (sent_more [Range (md_url loaded) offset (offset + 4 - 1)] st)
    = (Returns (Py.str (offset + 8 + Py.from_bytes_little size)),
       sent_more [Range (md_url loaded) offset (offset + 4 - 1);
                  Range (md_url loaded) (offset + 4) (offset + 4 + 4 - 1)]
         st)).
  { rewrite (skip_frame_run net byte_pos offset size).
    - cbn [self sent_more]. rewrite Hself. cbn [url __init__].
      now rewrite sent_more_more.
    - assumption.
    - cbn [self sent sent_more]. rewrite Hself. cbn [url __init__].
      rewrite length_app, Nat.add_1_r. exact Hsize. }
  split; [exact Hskip|].
  rewrite (find_data_frame_step net fuel _ _ _ _ _ Hself Hpos Hmagic).
  rewrite Hskippable. cbn [Z.eqb Pos.eqb].
  now rewrite (bind_returns _ _ _ _ _ Hskip).
Qed.

End Skipping.

(** C6 -- at an offset holding the skippable magic number, with
    [skip_size] the little-endian value of the four bytes that follow,
    [skip_frame] returns [offset + 8 + skip_size], [find_data_frame]
    carries on from there, and the request it sends next (the third of the
    call) is for the four bytes at [offset + 8 + skip_size]. *)
Theorem skippable_frame_is_stepped_over
  (net : remote) (fuel : nat) (byte_pos : string) (offset : Z)
  (magic size : list byte) (loaded : Metadata) (st : state) :
  self st = __init__ loaded ->
  Py.int byte_pos = Some offset ->
  net (List.length (sent st)) (Range (md_url loaded) offset (offset + 3))
  = Content magic ->
  Py.from_bytes_little magic = 0x184D2A50 ->
  net (S (List.length (sent st))) (Range (md_url loaded) (offset + 4) (offset + 7))
  = Content size ->
  fst (skip_frame net byte_pos
         (sent_more [Range (md_url loaded) offset (offset + 3)] st))
  = Returns (Py.str (offset + 8 + Py.from_bytes_little size))
  /\ find_data_frame net (S fuel) byte_pos st
     = find_data_frame net fuel
         (Py.str (offset + 8 + Py.from_bytes_little size))
         (sent_more [Range (md_url loaded) offset (offset + 3);
                     Range (md_url loaded) (offset + 4) (offset + 7)] st)
  /\ nth_error (sent (snd (find_data_frame net (S (S fuel)) byte_pos st)))
       (List.length (sent st) + 2)
     = Some (Range (md_url loaded)
               (offset + 8 + Py.from_bytes_little size)
               (offset + 8 + Py.from_bytes_little size + 3)).
Proof.
  intros Hself Hpos Hmagic Hskippable Hsize.
  replace (offset + 3) with (offset + 4 - 1) in * by lia.
  replace (offset + 7) with (offset + 4 + 4 - 1) in * by lia.
  destruct (find_data_frame_skips net fuel _ _ _ _ _ _
              Hself Hpos Hmagic Hskippable Hsize) as [Hskip Hfind].
  split; [now rewrite Hskip|]. split; [exact Hfind|].
  destruct (find_data_frame_skips net (S fuel) _ _ _ _ _ _
              Hself Hpos Hmagic Hskippable Hsize) as [_ ->].
  destruct (find_data_frame_first_request net fuel
              (Py.str (offset + 8 + Py.from_bytes_little size))
              (offset + 8 + Py.from_bytes_little size)
              (sent_more [Range (md_url loaded) offset (offset + 4 - 1);
                          Range (md_url loaded) (offset + 4) (offset + 4 + 4 - 1)]
                 st) (int_str _)) as [more ->].
  cbn [self sent sent_more]. rewrite Hself. cbn [url __init__].
  rewrite nth_error_app2; rewrite length_app; cbn [List.length]; [|lia].
  replace (List.length (sent st) + 2 - (List.length (sent st) + 2))%nat
    with 0%nat by lia.
  cbn [nth_error]. do 2 f_equal. lia.
Qed.

Lemma skippable_frame_is_stepped_over_witness :
  fst (skip_frame (serve skippable_then_frame) "0"
         (sent_more [Range (md_url sample_metadata) 0 3]
            (fresh sample_metadata)))
  = Returns "18"%string
  /\ nth_error
       (sent (snd (find_data_frame (serve skippable_then_frame) 2 "0"
                     (fresh sample_metadata))))
       2
     = Some (Range (md_url sample_metadata) 18 21).
Proof.
  destruct (skippable_frame_is_stepped_over (serve skippable_then_frame) 0
              "0" 0 [x50; x2a; x4d; x18] [x0a; x00; x00; x00]
              sample_metadata (fresh sample_metadata)
              eq_refl eq_refl eq_refl eq_refl eq_refl) as (Hskip & _ & Hnext).
  split; [exact Hskip | exact Hnext].
Defined.

(** C8 -- a step of either traversal moves strictly forward: at a parsable
    offset, whatever bytes the request brings back, [skip_frame] returns an
    offset at least 8 further on, and [check_block_header] one at least 3
    further on. *)
Theorem traversal_steps_move_forward
  (net : remote) (byte_pos : string) (offset : Z) (st : state) :
  Py.int byte_pos = Some offset ->
  (forall size,
      net (List.length (sent st))
          (Range (url (self st)) (offset + 4) (offset + 7)) = Content size ->
      exists skip_to next,
        fst (skip_frame net byte_pos st) = Returns skip_to
        /\ Py.int skip_to = Some next /\ offset + 8 <= next)
  /\ (forall header,
      net (List.length (sent st))
          (Range (url (self st)) offset (offset + 2)) = Content header ->
      exists is_last next_block_pos next,
        fst (check_block_header net byte_pos st)
        = Returns (is_last, next_block_pos)
        /\ Py.int next_block_pos = Some next /\ offset + 3 <= next).
Proof.
  intros Hpos. split.
  - intros size Hnet.
    replace (offset + 7) with (offset + 4 + 4 - 1) in Hnet by lia.
    rewrite (skip_frame_run net _ _ _ _ Hpos Hnet).
    exists (Py.str (offset + 8 + Py.from_bytes_little size)),
           (offset + 8 + Py.from_bytes_little size).
    pose proof (from_bytes_little_nonneg size).
    repeat split; [apply int_str | lia].
  - intros header Hnet.
    replace (offset + 2) with (offset + 3 - 1) in Hnet by lia.
    rewrite (check_block_header_run net _ _ _ _ Hpos Hnet).
    exists (Z.land (Py.from_bytes_little header) 1),
           (Py.str (offset + 3 + Z.shiftr (Py.from_bytes_little header) 3)),
           (offset + 3 + Z.shiftr (Py.from_bytes_little header) 3).
    pose proof (from_bytes_little_nonneg header) as Hh.
    apply (Z.shiftr_nonneg _ 3) in Hh.
    repeat split; [apply int_str | lia].
Qed.

Lemma traversal_steps_move_forward_witness :
  (exists skip_to next,
      fst (skip_frame (serve skippable_then_frame) "0" (fresh sample_metadata))
      = Returns skip_to
      /\ Py.int skip_to = Some next /\ 0 + 8 <= next)
  /\ (exists is_last next_block_pos next,
      fst (check_block_header (serve two_block_frame) "6"
             (fresh sample_metadata))
      = Returns (is_last, next_block_pos)
      /\ Py.int next_block_pos = Some next /\ 6 + 3 <= next).
Proof.
  split.
  - apply (proj1 (traversal_steps_move_forward (serve skippable_then_frame)
                    "0" 0 (fresh sample_metadata) eq_refl)
             [x0a; x00; x00; x00]).
    reflexivity.
  - apply (proj2 (traversal_steps_move_forward (serve two_block_frame)
                    "6" 6 (fresh sample_metadata) eq_refl)
             [x28; x00; x00]).
    reflexivity.
Defined.

(** ** Chains of skippable frames *)

Section Chains.

Variable net : remote.
Variable loaded : Metadata.

Lemma skippable_chain_sizes offset sizes data :
  skippable_chain net (md_url loaded) offset sizes data ->
  Forall (fun size => 0 <= size) sizes.
Proof.
  induction 1 as [|offset magic size sizes data _ _ _ _ IH]; constructor.
  - apply from_bytes_little_nonneg.
  - exact IH.
Qed.

Lemma find_data_frame_walks offset sizes data :
  skippable_chain net (md_url loaded) offset sizes data ->
  forall fuel byte_pos st,
    self st = __init__ loaded ->
    Py.int byte_pos = Some offset ->
    (List.length sizes < fuel)%nat ->
    exists found,
      find_data_frame net fuel byte_pos st
      = (Returns found,
         sent_more (chain_requests (md_url loaded) offset sizes) st)
      /\ Py.int found = Some data
      /\ (sizes = [] -> found = byte_pos).
Proof.
  induction 1 as [offset magic Hmagic Hdata
                 |offset magic size sizes data Hmagic Hskippable Hsize _ IH];
    intros fuel byte_pos st Hself Hpos Hfuel;
    (destruct fuel as [|fuel]; [cbn [List.length] in Hfuel; lia|]).
  - exists byte_pos.
    rewrite (find_data_frame_step net fuel _ _ _ _ _ Hself Hpos (Hmagic _)).
    rewrite Hdata. now cbn.
  - destruct (find_data_frame_skips net fuel _ _ _ _ _ _
                Hself Hpos (Hmagic _) Hskippable (Hsize _)) as [_ ->].
    cbn [List.length] in Hfuel.
    destruct (IH fuel (Py.str (offset + 8 + Py.from_bytes_little size))
                (sent_more
                   [Range (md_url loaded) offset (offset + 4 - 1);
                    Range (md_url loaded) (offset + 4) (offset + 4 + 4 - 1)]
                   st) Hself (int_str _) ltac:(lia))
      as (found & Hrun & Hfound & _).
    exists found. rewrite Hrun, sent_more_more.
    repeat split; [exact Hfound | discriminate].
Qed.

Lemma frame_offsets_lower offset sizes x :
  Forall (fun size => 0 <= size) sizes ->
  In x (frame_offsets offset sizes) -> offset <= x.
Proof.
  intros Hsizes. revert offset.
  induction Hsizes as [|size sizes Hsize _ IH]; intros offset; cbn.
  - intros [<-|[]]. lia.
  - intros [<-|Hin]; [lia|]. apply IH in Hin. lia.
Qed.

Lemma chain_requests_lower u offset sizes r :
  Forall (fun size => 0 <= size) sizes ->
  In r (chain_requests u offset sizes) -> offset <= first_byte r.
Proof.
  intros Hsizes. revert offset.
  induction Hsizes as [|size sizes Hsize _ IH]; intros offset; cbn.
  - intros [<-|[]]. cbn. lia.
  - intros [<-|[<-|Hin]]; cbn; [lia..|]. apply IH in Hin. lia.
Qed.

Lemma reads_magic_beyond frames r :
  (forall x, In x frames -> first_byte r < x) -> reads_magic frames r = false.
Proof.
  intros Hlow. unfold reads_magic.
  destruct (existsb _ frames) eqn:E; [|reflexivity].
  apply existsb_exists in E. destruct E as (x & Hin & Heq).
  apply Z.eqb_eq in Heq. apply Hlow in Hin. lia.
Qed.

Lemma reads_magic_cons frame frames r :
  reads_magic (frame :: frames) r
  = (first_byte r =? frame) || reads_magic frames r.
Proof. reflexivity. Qed.

(** Of the requests of a walk, as many read a magic number as there are
    frames: one per skippable frame and one for the data frame. *)
Lemma chain_magic_reads u offset sizes :
  Forall (fun size => 0 <= size) sizes ->
  List.length (filter (reads_magic (frame_offsets offset sizes))
                 (chain_requests u offset sizes))
  = S (List.length sizes).
Proof.
  intros Hsizes. revert offset.
  induction Hsizes as [|size sizes Hsize Hsizes IH]; intros offset.
  - cbn. now rewrite Z.eqb_refl.
  - change (frame_offsets offset (size :: sizes))
      with (offset :: frame_offsets (offset + 8 + size) sizes).
    cbn [chain_requests filter].
    rewrite !reads_magic_cons. cbn [first_byte].
    rewrite Z.eqb_refl. cbn [orb List.length]. f_equal.
    replace (offset + 4 =? offset) with false by (symmetry; lia).
    cbn [orb]. rewrite reads_magic_beyond.
    + rewrite <- (IH (offset + 8 + size)). f_equal.
      apply filter_ext_in. intros r Hin.
      apply (chain_requests_lower _ _ _ _ Hsizes) in Hin.
      rewrite reads_magic_cons.
      now replace (first_byte r =? offset) with false by (symmetry; lia).
    + intros x Hin. apply (frame_offsets_lower _ _ _ Hsizes) in Hin.
      cbn. lia.
Qed.

End Chains.

(** ** Chains that outrun the interpreter *)

Section LongChains.

Variable net : remote.
Variable loaded : Metadata.

(** With room for no more nested calls than the chain has skippable
    frames, the walk ends in [RecursionError]. *)
Lemma find_data_frame_out_of_room offset sizes data :
  skippable_chain net (md_url loaded) offset sizes data ->
  forall fuel byte_pos st,
    self st = __init__ loaded ->
    Py.int byte_pos = Some offset ->
    (fuel <= List.length sizes)%nat ->
    fst (find_data_frame net fuel byte_pos st) = Raises RecursionError.
Proof.
  induction 1 as [offset magic Hmagic Hdata
                 |offset magic size sizes data Hmagic Hskippable Hsize _ IH];
    intros fuel byte_pos st Hself Hpos Hfuel;
    (destruct fuel as [|fuel]; [reflexivity|]);
    cbn [List.length] in Hfuel; [lia|].
  destruct (find_data_frame_skips net fuel _ _ _ _ _ _
              Hself Hpos (Hmagic _) Hskippable (Hsize _)) as [_ ->].
  apply IH; [exact Hself | apply int_str | lia].
Qed.

End LongChains.

Section ServedChains.

Lemma skippable_frames_shift k rest :
  skippable_frames k (empty_skippable_frame ++ rest)
  = empty_skippable_frame ++ skippable_frames k rest.
Proof.
  induction k as [|k IH]; [reflexivity|].
  cbn [skippable_frames]. now rewrite IH.
Qed.

Lemma skipn_skippable_frames k rest :
  skipn (8 * k) (skippable_frames k rest) = rest.
Proof.
  induction k as [|k IH]; [reflexivity|].
  cbn [skippable_frames].
  replace (8 * S k)%nat with (8 * k + 8)%nat by lia.
  rewrite <- skipn_skipn. exact IH.
Qed.

Lemma slice_skippable_frames j rest n :
  slice (skippable_frames j rest) (8 * Z.of_nat j) (8 * Z.of_nat j + n - 1)
  = firstn (Z.to_nat n) rest.
Proof.
  unfold slice. replace (Z.to_nat (8 * Z.of_nat j)) with (8 * j)%nat by lia.
  rewrite skipn_skippable_frames. f_equal. lia.
Qed.

Lemma slice_skippable_frames_size j rest :
  slice (skippable_frames j (empty_skippable_frame ++ rest))
    (8 * Z.of_nat j + 4) (8 * Z.of_nat j + 4 + 4 - 1)
  = [x00; x00; x00; x00].
Proof.
  unfold slice.
  replace (Z.to_nat (8 * Z.of_nat j + 4)) with (4 + 8 * j)%nat by lia.
  rewrite <- skipn_skipn, skipn_skippable_frames.
  replace (8 * Z.of_nat j + 4 + 4 - 1 - (8 * Z.of_nat j + 4) + 1) with 4
    by lia.
  reflexivity.
Qed.

(** [k] empty skippable frames in front of [one_block_frame], themselves
    behind [j] such frames, are a chain that starts at [8 * j]. *)
Lemma skippable_frames_chain u k :
  forall j,
    skippable_chain
      (serve (skippable_frames j (skippable_frames k one_block_frame))) u
      (8 * Z.of_nat j) (repeat 0 k) (8 * Z.of_nat (j + k)).
Proof.
  induction k as [|k IH]; intros j.
  - rewrite Nat.add_0_r.
    apply (chain_data _ _ _ [x28; xb5; x2f; xfd]); [|reflexivity].
    intros i. unfold serve. cbn [first_byte last_byte].
    now rewrite slice_skippable_frames.
  - apply (chain_skip _ _ _ [x50; x2a; x4d; x18] [x00; x00; x00; x00]
             (repeat 0 k)); [| reflexivity | |].
    + intros i. unfold serve. cbn [first_byte last_byte].
      now rewrite slice_skippable_frames.
    + intros i. unfold serve. cbn [first_byte last_byte skippable_frames].
      now rewrite slice_skippable_frames_size.
    + cbn [skippable_frames]. rewrite skippable_frames_shift.
      change (Py.from_bytes_little [x00; x00; x00; x00]) with 0.
      replace (8 * Z.of_nat j + 8 + 0) with (8 * Z.of_nat (S j)) by lia.
      replace (j + S k)%nat with (S j + k)%nat by lia.
      exact (IH (S j)).
Qed.

End ServedChains.

(** C3, within the interpreter's limit -- a chain of [k] skippable frames
    in front of a data frame, walked with room for [fuel] nested calls,
    [fuel] being at most the recursion limit: when [k < fuel],
    [find_data_frame] returns the offset of the data frame (the very
    string it was given when [k = 0]) and exactly [k + 1] of its requests
    read a magic number; when [fuel <= k], and so whenever [k] reaches the
    recursion limit, it raises [RecursionError]. *)
Theorem find_data_frame_resolves_chain_within_limit
  (net : remote) (loaded : Metadata) (offset : Z) (sizes : list Z) (data : Z)
  (fuel : nat) (byte_pos : string) (st : state) :
  skippable_chain net (md_url loaded) offset sizes data ->
  self st = __init__ loaded ->
  Py.int byte_pos = Some offset ->
  (fuel <= Py.recursion_limit)%nat ->
  ((List.length sizes < fuel)%nat ->
   exists found,
     find_data_frame net fuel byte_pos st
     = (Returns found,
        sent_more (chain_requests (md_url loaded) offset sizes) st)
     /\ Py.int found = Some data
     /\ (sizes = [] -> found = byte_pos)
     /\ List.length (filter (reads_magic (frame_offsets offset sizes))
                       (chain_requests (md_url loaded) offset sizes))
        = S (List.length sizes))
  /\ ((fuel <= List.length sizes)%nat ->
      fst (find_data_frame net fuel byte_pos st) = Raises RecursionError)
  /\ ((Py.recursion_limit <= List.length sizes)%nat ->
      fst (find_data_frame net fuel byte_pos st) = Raises RecursionError).
Proof.
  intros Hchain Hself Hpos Hlimit. split; [|split].
  - intros Hfuel.
    destruct (find_data_frame_walks net loaded _ _ _ Hchain
                fuel byte_pos st Hself Hpos Hfuel)
      as (found & Hrun & Hfound & Hsame).
    exists found. repeat split; try assumption.
    apply chain_magic_reads.
    exact (skippable_chain_sizes net loaded _ _ _ Hchain).
  - intros Hfuel.
    exact (find_data_frame_out_of_room net loaded _ _ _ Hchain
             fuel byte_pos st Hself Hpos Hfuel).
  - intros Hlong.
    apply (find_data_frame_out_of_room net loaded _ _ _ Hchain
             fuel byte_pos st Hself Hpos).
    lia.
Qed.

Lemma find_data_frame_resolves_chain_within_limit_witness :
  ((List.length [10] < 2)%nat ->
   exists found,
     find_data_frame (serve skippable_then_frame) 2 "0" (fresh sample_metadata)
     = (Returns found,
        sent_more (chain_requests (md_url sample_metadata) 0 [10])
          (fresh sample_metadata))
     /\ Py.int found = Some 18
     /\ ([10] = [] -> found = "0"%string)
     /\ List.length (filter (reads_magic (frame_offsets 0 [10]))
                       (chain_requests (md_url sample_metadata) 0 [10]))
        = 2%nat)
  /\ ((2 <= List.length [10])%nat ->
      fst (find_data_frame (serve skippable_then_frame) 2 "0"
             (fresh sample_metadata))
      = Raises RecursionError)
  /\ ((Py.recursion_limit <= List.length [10])%nat ->
      fst (find_data_frame (serve skippable_then_frame) 2 "0"
             (fresh sample_metadata))
      = Raises RecursionError).
Proof.
  apply (find_data_frame_resolves_chain_within_limit
           (serve skippable_then_frame) sample_metadata 0 [10] 18 2 "0"
           (fresh sample_metadata)).
  - apply (chain_skip _ _ 0 [x50; x2a; x4d; x18] [x0a; x00; x00; x00] [] 18).
    + intros i. reflexivity.
    + reflexivity.
    + intros i. reflexivity.
    + apply (chain_data _ _ 18 [x28; xb5; x2f; xfd]).
      * intros i. reflexivity.
      * reflexivity.
  - reflexivity.
  - reflexivity.
  - unfold Py.recursion_limit. lia.
Defined.

(** C3, as the spec has it, fails: [long_chain] is a valid chain of 1000
    skippable frames in front of a data frame at offset 8000, and
    [find_data_frame], with whatever room the interpreter can give it,
    raises [RecursionError] on it instead of returning that offset. *)
Lemma find_data_frame_gives_up_on_long_chain :
  skippable_chain (serve long_chain) (md_url sample_metadata)
    0 (repeat 0 Py.recursion_limit) 8000
  /\ (forall fuel,
         (fuel <= Py.recursion_limit)%nat ->
         fst (find_data_frame (serve long_chain) fuel "0"
                (fresh sample_metadata))
         = Raises RecursionError).
Proof.
  assert (Hchain : skippable_chain (serve long_chain)
                     (md_url sample_metadata)
                     0 (repeat 0 Py.recursion_limit) 8000)
    by exact (skippable_frames_chain (md_url sample_metadata)
                Py.recursion_limit 0).
  split; [exact Hchain|].
  intros fuel Hfuel.
  apply (find_data_frame_out_of_room (serve long_chain) sample_metadata
           _ _ _ Hchain fuel "0" (fresh sample_metadata));
    [reflexivity | reflexivity |].
  now rewrite repeat_length.
Qed.

(** ** Walking the blocks of a frame *)

Section Blocks.

Variable net : remote.

Lemma traverse_blocks_done fuel l :
  is_last_block l <> 0 -> traverse_blocks net fuel l = ret l.
Proof.
  intros Hlast. apply Z.eqb_neq in Hlast.
  destruct fuel; cbn [traverse_blocks]; now rewrite Hlast.
Qed.

Lemma block_chain_sizes u offset sizes :
  block_chain net u offset sizes ->
  sizes <> [] /\ Forall (fun size => 0 <= size) sizes.
Proof.
  induction 1 as [offset header _ _|offset header sizes _ _ _ [_ IH]];
    (split; [discriminate|]); constructor;
    try (apply Z.shiftr_nonneg, from_bytes_little_nonneg);
    [constructor | exact IH].
Qed.

Lemma blocks_span_cons size sizes :
  blocks_span (size :: sizes) = 3 + size + blocks_span sizes.
Proof. reflexivity. Qed.

(** The loop of [get_frame_size] over a chain of blocks: one iteration
    and one request per block; it stops with [last_pos] at the start of
    the last block and [block_pos] just after its content. *)
Lemma traverse_blocks_walks u offset sizes :
  block_chain net u offset sizes ->
  forall fuel previous st,
    url (self st) = u ->
    (List.length sizes <= fuel)%nat ->
    traverse_blocks net fuel
      {| is_last_block := 0; last_pos := previous;
         block_pos := Py.str offset |} st
    = (Returns
         {| is_last_block := 1;
            last_pos := Some (Py.str (offset + blocks_span (removelast sizes)));
            block_pos := Py.str (offset + blocks_span sizes) |},
       sent_more (map (fun o => Range u o (o + 3 - 1))
                    (block_offsets offset sizes)) st).
Proof.
  induction 1 as [offset header Hheader Hlast
                 |offset header sizes Hheader Hlast Hchain IH];
    intros fuel previous st Hurl Hfuel;
    (destruct fuel as [|fuel]; [cbn [List.length] in Hfuel; lia|]);
    cbn [traverse_blocks is_last_block block_pos Z.eqb];
    specialize (Hheader (List.length (sent st))); rewrite <- Hurl in Hheader;
    rewrite (bind_returns _ _ _ _ _
               (check_block_header_run net _ _ _ _ (int_str _) Hheader));
    rewrite Hlast, Hurl.
  - rewrite traverse_blocks_done by (cbn; lia).
    cbn [removelast blocks_span fold_right block_offsets map].
    replace (offset + 0) with offset by lia.
    replace (offset + (3 + Z.shiftr (Py.from_bytes_little header) 3 + 0))
      with (offset + 3 + Z.shiftr (Py.from_bytes_little header) 3) by lia.
    reflexivity.
  - cbn [List.length] in Hfuel.
    destruct (block_chain_sizes _ _ _ Hchain) as [Hne _].
    rewrite (IH fuel _ _) by (cbn [self sent_more]; auto; lia).
    rewrite sent_more_more.
    assert (Hrem : forall size,
               removelast (size :: sizes) = size :: removelast sizes)
      by (intros size; destruct sizes; [contradiction | reflexivity]).
    rewrite Hrem, !blocks_span_cons. cbn [block_offsets map app].
    rewrite !Z.add_assoc. reflexivity.
Qed.

(** What [get_frame_size] returns on a frame whose blocks form a chain:
    the distance from the frame's start to the start of its last block,
    plus four. *)
Lemma get_frame_size_walks byte_pos start sizes fuel st :
  block_chain net (url (self st)) (start + 6) sizes ->
  Py.int byte_pos = Some start ->
  (List.length sizes <= fuel)%nat ->
  get_frame_size net fuel byte_pos st
  = (Returns (6 + blocks_span (removelast sizes) + 4),
     sent_more (map (fun o => Range (url (self st)) o (o + 3 - 1))
                  (block_offsets (start + 6) sizes)) st).
Proof.
  intros Hchain Hpos Hfuel. unfold get_frame_size. cbv zeta.
  rewrite Hpos. cbn [or_raise]. rewrite bind_ret.
  rewrite (bind_returns _ _ _ _ _
             (traverse_blocks_walks _ _ _ Hchain fuel None st eq_refl Hfuel)).
  cbn [last_pos or_raise]. rewrite bind_ret, int_str.
  cbn [or_raise]. rewrite !bind_ret. unfold ret.
  do 2 f_equal. lia.
Qed.

Lemma block_offsets_spaced offset sizes :
  Forall (fun size => 0 <= size) sizes ->
  spaced 3 (block_offsets offset sizes).
Proof.
  intros Hsizes. revert offset.
  induction Hsizes as [|size sizes Hsize Hsizes IH]; intros offset;
    [exact I|].
  cbn [block_offsets]. specialize (IH (offset + 3 + size)).
  destruct sizes as [|size' sizes']; [exact I|].
  cbn [block_offsets] in *. cbn [spaced]. split; [lia | exact IH].
Qed.

Lemma block_offsets_length offset sizes :
  List.length (block_offsets offset sizes) = List.length sizes.
Proof.
  revert offset. induction sizes as [|size sizes IH]; intros offset;
    cbn; [reflexivity | now rewrite IH].
Qed.

End Blocks.

(** C9 -- when the block headers from [start + 6] on form a chain that
    reaches a last block, the loop of [get_frame_size] comes to an end:
    with room for one iteration per block the call returns, having asked
    for exactly the headers of the chain, and the positions it visits grow
    by at least 3 from one iteration to the next. *)
Theorem get_frame_size_terminates
  (net : remote) (byte_pos : string) (start : Z) (sizes : list Z)
  (fuel : nat) (st : state) :
  block_chain net (url (self st)) (start + 6) sizes ->
  Py.int byte_pos = Some start ->
  (List.length sizes <= fuel)%nat ->
  (exists frame_size,
      get_frame_size net fuel byte_pos st
      = (Returns frame_size,
         sent_more (map (fun o => Range (url (self st)) o (o + 2))
                      (block_offsets (start + 6) sizes)) st))
  /\ List.length (block_offsets (start + 6) sizes) = List.length sizes
  /\ spaced 3 (block_offsets (start + 6) sizes).
Proof.
  intros Hchain Hpos Hfuel. split; [|split].
  - exists (6 + blocks_span (removelast sizes) + 4).
    rewrite (get_frame_size_walks net _ _ _ _ _ Hchain Hpos Hfuel).
    do 2 f_equal. apply map_ext. intros o. f_equal. lia.
  - apply block_offsets_length.
  - apply block_offsets_spaced.
    exact (proj2 (block_chain_sizes net _ _ _ Hchain)).
Qed.

Lemma get_frame_size_terminates_witness :
  (exists frame_size,
      get_frame_size (serve two_block_frame) 2 "0" (fresh sample_metadata)
      = (Returns frame_size,
         sent_more (map (fun o => Range (md_url sample_metadata) o (o + 2))
                      (block_offsets (0 + 6) [5; 2]))
           (fresh sample_metadata)))
  /\ List.length (block_offsets (0 + 6) [5; 2]) = 2%nat
  /\ spaced 3 (block_offsets (0 + 6) [5; 2]).
Proof.
  apply (get_frame_size_terminates (serve two_block_frame) "0" 0 [5; 2] 2
           (fresh sample_metadata)).
  - apply (chain_more _ _ 6 [x28; x00; x00] [2]).
    + intros i. reflexivity.
    + reflexivity.
    + apply (chain_last _ _ 14 [x11; x00; x00]).
      * intros i. reflexivity.
      * reflexivity.
  - reflexivity.
  - simpl. lia.
Defined.

(** C1 -- on a frame with a single block of content size 100 flagged as
    last, a frame of [6 + 3 + 100 + 4 = 113] bytes, [get_frame_size]
    returns 10: the start of the last block counted from the start of the
    frame, plus four. *)
Theorem get_frame_size_single_block :
  Z.of_nat (List.length one_block_frame) = 113
  /\ block_chain (serve one_block_frame) (md_url sample_metadata) (0 + 6) [100]
  /\ get_frame_size (serve one_block_frame) 1 "0" (fresh sample_metadata)
     = (Returns 10,
        sent_more [Range (md_url sample_metadata) 6 8] (fresh sample_metadata)).
Proof.
  split; [reflexivity|]. split; [|reflexivity].
  apply (chain_last _ _ 6 [x21; x03; x00]).
  - intros i. reflexivity.
  - reflexivity.
Qed.

(** C7 -- a call of [download_frame] that raises, whatever raised and
    however far the call had got, leaves [current_pos] as it was. *)
Theorem failed_download_keeps_current_pos
  (net : remote) (fuel : nat) (byte_pos : string) (st st' : state) (e : exn) :
  download_frame net fuel byte_pos st = (Raises e, st') ->
  current_pos (self st') = current_pos (self st).
Proof.
  intros Hrun. pose proof (download_frame_keeps_self net fuel byte_pos st) as H.
  rewrite Hrun in H. cbn [snd] in H. now rewrite H.
Qed.

Lemma failed_download_keeps_current_pos_witness :
  fst (download_frame (serve_failing_at 3 skippable_then_frame) 2 "0"
         (fresh sample_metadata))
  = Raises RequestException
  /\ current_pos
       (self (snd (download_frame (serve_failing_at 3 skippable_then_frame)
                     2 "0" (fresh sample_metadata))))
     = current_pos (self (fresh sample_metadata)).
Proof.
  split; [reflexivity|].
  apply (failed_download_keeps_current_pos
           (serve_failing_at 3 skippable_then_frame) 2 "0"
           (fresh sample_metadata) _ RequestException).
  reflexivity.
Defined.

(** C2 -- [download_frame] does not advance the cursor: called on
    offset 0 of [one_block_frame], with the saved position at 0, it
    resolves the frame at 0, sizes it (as 10; the frame has 113 bytes) and
    returns [None]; the object is what it was, and [current_pos], still
    0, is neither [0 + 10] nor [0 + 113]. *)
Theorem download_frame_does_not_advance :
  fst (find_data_frame (serve one_block_frame) 1 "0" (fresh sample_metadata))
  = Returns "0"%string
  /\ fst (get_frame_size (serve one_block_frame) 1 "0"
            (snd (find_data_frame (serve one_block_frame) 1 "0"
                    (fresh sample_metadata))))
     = Returns 10
  /\ fst (download_frame (serve one_block_frame) 1 "0" (fresh sample_metadata))
     = Returns tt
  /\ self (snd (download_frame (serve one_block_frame) 1 "0"
                  (fresh sample_metadata)))
     = self (fresh sample_metadata)
  /\ current_pos
       (self (snd (download_frame (serve one_block_frame) 1 "0"
                     (fresh sample_metadata))))
     = 0
  /\ current_pos
       (self (snd (download_frame (serve one_block_frame) 1 "0"
                     (fresh sample_metadata))))
     <> 0 + 10
  /\ current_pos
       (self (snd (download_frame (serve one_block_frame) 1 "0"
                     (fresh sample_metadata))))
     <> 0 + 113.
Proof.
  repeat split; try reflexivity; vm_compute; discriminate.
Qed.

(** C10 -- constructing the streaming [DataStreamer] raises whatever the
    arguments and whatever the libraries would do: [NameError] for [url]
    when [resume] is false, [AttributeError] for [resume_stream] when it is
    true. *)
Theorem streaming_constructor_always_raises
  (handle : Type)
  (open_stream : datastreamer.binding -> datastreamer.binding -> Z
                 -> outcome (handle * handle))
  (call : datastreamer.binding -> Z -> outcome (handle * handle))
  (url : string) (resume : bool) (buffer_size : Z) :
  datastreamer.__init__ handle open_stream call url resume buffer_size
  = Raises (if resume then AttributeError "resume_stream" else NameError "url").
Proof. destruct resume; reflexivity. Qed.

(** ** The calls, one request at a time *)

Section Unfolding.

Variable net : remote.

(** One call of [find_data_frame] at a parsable offset, by what the remote
    side answers. *)
Lemma find_data_frame_unfold fuel byte_pos offset loaded st :
  self st = __init__ loaded ->
  Py.int byte_pos = Some offset ->
  find_data_frame net (S fuel) byte_pos st
  = match net (List.length (sent st))
            (Range (md_url loaded) offset (offset + 4 - 1)) with
    | TransportError =>
        (Raises RequestException,
         sent_more [Range (md_url loaded) offset (offset + 4 - 1)] st)
    | Content magic =>
        if Py.from_bytes_little magic =? 0x184D2A50 then
          match net (S (List.length (sent st)))
                  (Range (md_url loaded) (offset + 4) (offset + 4 + 4 - 1)) with
          | TransportError =>
              (Raises RequestException,
               sent_more
                 [Range (md_url loaded) offset (offset + 4 - 1);
                  Range (md_url loaded) (offset + 4) (offset + 4 + 4 - 1)] st)
          | Content size =>
              find_data_frame net fuel
                (Py.str (offset + 8 + Py.from_bytes_little size))
                (sent_more
                   [Range (md_url loaded) offset (offset + 4 - 1);
                    Range (md_url loaded) (offset + 4) (offset + 4 + 4 - 1)] st)
          end
        else if Py.from_bytes_little magic =? 0xFD2FB528 then
          (Returns byte_pos,
           sent_more [Range (md_url loaded) offset (offset + 4 - 1)] st)
        else
          (Raises (Exception_
                     "Could not find frame magic number in zstd file."),
           sent_more [Range (md_url loaded) offset (offset + 4 - 1)] st)
    end.
Proof.
  intros Hself Hpos.
  assert (Hurl : url (self st) = md_url loaded) by now rewrite Hself.
  destruct (net (List.length (sent st))
              (Range (md_url loaded) offset (offset + 4 - 1)))
    as [magic|] eqn:Hmagic.
  - rewrite (find_data_frame_step net fuel _ _ _ _ _ Hself Hpos Hmagic).
    destruct (Py.from_bytes_little magic =? 0x184D2A50) eqn:Hskippable;
      [|reflexivity].
    apply Z.eqb_eq in Hskippable.
    destruct (net (S (List.length (sent st)))
                (Range (md_url loaded) (offset + 4) (offset + 4 + 4 - 1)))
      as [size|] eqn:Hsize.
    + destruct (find_data_frame_skips net fuel _ _ _ _ _ _
                  Hself Hpos Hmagic Hskippable Hsize) as [Hskip _].
      now rewrite (bind_returns _ _ _ _ _ Hskip).
    + apply bind_raises. unfold skip_frame. rewrite Hpos. cbn [or_raise].
      rewrite bind_ret. apply bind_raises.
      rewrite (get_n_bytes_parsed net _ _ _ _ (int_str _)).
      cbn [self sent_more]. rewrite Hurl.
      rewrite requests_get_error.
      * now rewrite sent_more_more.
      * cbn [sent sent_more]. rewrite length_app, Nat.add_1_r. exact Hsize.
  - cbn [find_data_frame]. apply bind_raises.
    rewrite (get_n_bytes_parsed net _ _ _ _ Hpos), Hurl.
    now apply requests_get_error.
Qed.

(** One iteration of the loop of [get_frame_size], by what the remote
    side answers. *)
Lemma traverse_blocks_unfold fuel previous offset st :
  traverse_blocks net (S fuel)
    {| is_last_block := 0; last_pos := previous; block_pos := Py.str offset |}
    st
  = match net (List.length (sent st))
            (Range (url (self st)) offset (offset + 3 - 1)) with
    | TransportError =>
        (Raises RequestException,
         sent_more [Range (url (self st)) offset (offset + 3 - 1)] st)
    | Content header =>
        if Z.land (Py.from_bytes_little header) 1 =? 0 then
          traverse_blocks net fuel
            {| is_last_block := 0;
               last_pos := Some (Py.str offset);
               block_pos :=
                 Py.str (offset + 3
                         + Z.shiftr (Py.from_bytes_little header) 3) |}
            (sent_more [Range (url (self st)) offset (offset + 3 - 1)] st)
        else
          (Returns
             {| is_last_block := Z.land (Py.from_bytes_little header) 1;
                last_pos := Some (Py.str offset);
                block_pos :=
                  Py.str (offset + 3
                          + Z.shiftr (Py.from_bytes_little header) 3) |},
           sent_more [Range (url (self st)) offset (offset + 3 - 1)] st)
    end.
Proof.
  cbn [traverse_blocks is_last_block block_pos Z.eqb].
  destruct (net (List.length (sent st))
              (Range (url (self st)) offset (offset + 3 - 1)))
    as [header|] eqn:Hheader.
  - rewrite (bind_returns _ _ _ _ _
               (check_block_header_run net _ _ _ _ (int_str _) Hheader)).
    destruct (Z.land (Py.from_bytes_little header) 1 =? 0) eqn:Hlast.
    + apply Z.eqb_eq in Hlast. now rewrite Hlast.
    + apply Z.eqb_neq in Hlast. now rewrite traverse_blocks_done.
  - apply bind_raises. unfold check_block_header. apply bind_raises.
    rewrite (get_n_bytes_parsed net _ _ _ _ (int_str _)).
    now apply requests_get_error.
Qed.

(** [get_frame_size] at a parsable offset, by how its loop ends. *)
Lemma get_frame_size_unfold fuel byte_pos start st :
  Py.int byte_pos = Some start ->
  get_frame_size net fuel byte_pos st
  = match traverse_blocks net fuel
            {| is_last_block := 0; last_pos := None;
               block_pos := Py.str (start + 6) |} st with
    | (Returns l, st') =>
        match last_pos l with
        | None => (Raises UnboundLocalError, st')
        | Some last =>
            match Py.int last with
            | None => (Raises ValueError, st')
            | Some p => (Returns (p - start + 4), st')
            end
        end
    | (Raises e, st') => (Raises e, st')
    | (OutOfFuel, st') => (OutOfFuel, st')
    end.
Proof.
  intros Hpos. unfold get_frame_size. cbv zeta.
  rewrite Hpos. cbn [or_raise]. rewrite bind_ret. unfold bind at 1.
  destruct (traverse_blocks net fuel _ st) as [[l|e|] st']; try reflexivity.
  destruct (last_pos l) as [last|]; [|reflexivity].
  cbn [or_raise]. rewrite bind_ret.
  destruct (Py.int last) as [p|]; reflexivity.
Qed.

End Unfolding.

(** ** Lists of requests *)

Section Requests.

Lemma ascending_weaken low low' rs :
  low' <= low -> ascending_from low rs -> ascending_from low' rs.
Proof. destruct rs as [|r rs]; cbn; [trivial|]. intros ? [? ?]. split; [lia|assumption]. Qed.

Lemma ascending_app low high rs rs' :
  low <= high ->
  ascending_from low rs ->
  Forall (fun r => first_byte r < high) rs ->
  ascending_from high rs' ->
  ascending_from low (rs ++ rs').
Proof.
  revert low. induction rs as [|r rs IH]; intros low Hlow Hasc Hbound Hasc'.
  - now apply (ascending_weaken high).
  - destruct Hasc as [Hr Hasc]. inversion Hbound as [|? ? Hr' Hbound']; subst.
    cbn. split; [assumption|]. apply IH; [lia|assumption..].
Qed.

Lemma answered_app net base rs rs' :
  answered net base (rs ++ rs')
  <-> answered net base rs /\ answered net (base + List.length rs) rs'.
Proof.
  revert base. induction rs as [|r rs IH]; intros base; cbn.
  - rewrite Nat.add_0_r. tauto.
  - rewrite IH, Nat.add_succ_r. cbn. tauto.
Qed.

Lemma sent_more_sent rs st : sent (sent_more rs st) = sent st ++ rs.
Proof. reflexivity. Qed.

End Requests.

(** ** Whatever the remote side answers: locating *)

Section LocatingAnyRemote.

Variable net : remote.

(** The requests of a call of [find_data_frame]: four bytes each, at
    ascending offsets from the given one on, and none beyond the offset
    returned. *)
Lemma find_data_frame_trail fuel :
  forall byte_pos offset loaded st,
    self st = __init__ loaded ->
    Py.int byte_pos = Some offset ->
    exists more,
      snd (find_data_frame net fuel byte_pos st) = sent_more more st
      /\ Forall (asks (md_url loaded) 4) more
      /\ ascending_from offset more
      /\ (forall found,
             fst (find_data_frame net fuel byte_pos st) = Returns found ->
             exists data,
               Py.int found = Some data /\ offset <= data
               /\ Forall (fun r => first_byte r <= data) more).
Proof.
  induction fuel as [|fuel IH]; intros byte_pos offset loaded st Hself Hpos.
  - exists []. cbn. rewrite sent_more_nil.
    repeat split; [constructor | discriminate].
  - rewrite (find_data_frame_unfold net fuel _ _ _ _ Hself Hpos).
    destruct (net (List.length (sent st)) _) as [magic|].
    + destruct (Py.from_bytes_little magic =? 0x184D2A50).
      * destruct (net (S (List.length (sent st))) _) as [size|].
        -- pose proof (from_bytes_little_nonneg size) as Hsize.
           destruct (IH (Py.str (offset + 8 + Py.from_bytes_little size))
                       (offset + 8 + Py.from_bytes_little size) loaded
                       (sent_more
                          [Range (md_url loaded) offset (offset + 4 - 1);
                           Range (md_url loaded) (offset + 4)
                             (offset + 4 + 4 - 1)] st)
                       Hself (int_str _))
             as (more & Hst & Hasks & Hasc & Hret).
           eexists (_ :: _ :: more). rewrite Hst, sent_more_more.
           split; [reflexivity|]. split; [|split].
           ++ repeat constructor; assumption.
           ++ cbn. repeat split; try lia.
              apply (ascending_weaken
                       (offset + 8 + Py.from_bytes_little size));
                [lia | exact Hasc].
           ++ intros found Hfound. destruct (Hret found Hfound)
                as (data & Hdata & Hle & Hbound).
              exists data. repeat split; [assumption | lia |].
              repeat constructor; cbn; try lia. assumption.
        -- eexists [_; _]. split; [reflexivity|].
           repeat split; try discriminate; try (cbn; lia);
             repeat constructor.
      * destruct (Py.from_bytes_little magic =? 0xFD2FB528).
        -- eexists [_]. split; [reflexivity|].
           repeat split; try (cbn; lia); repeat constructor.
           intros found [= <-]. exists offset.
           repeat split; [assumption | lia |].
           repeat constructor. cbn. lia.
        -- eexists [_]. split; [reflexivity|].
           repeat split; try discriminate; try (cbn; lia);
             repeat constructor.
    + eexists [_]. split; [reflexivity|].
      repeat split; try discriminate; try (cbn; lia); repeat constructor.
Qed.

End LocatingAnyRemote.

Section LocatingOutcomes.

Variable net : remote.

(** What a returning call of [find_data_frame] has seen: its last request
    read the four bytes at the offset it returns, and they were the
    data-frame magic number. *)
Lemma find_data_frame_sound fuel :
  forall byte_pos offset loaded st found st',
    self st = __init__ loaded ->
    Py.int byte_pos = Some offset ->
    find_data_frame net fuel byte_pos st = (Returns found, st') ->
    exists data init magic,
      Py.int found = Some data
      /\ offset <= data
      /\ sent st'
         = sent st ++ init ++ [Range (md_url loaded) data (data + 4 - 1)]
      /\ net (List.length (sent st) + List.length init)%nat
             (Range (md_url loaded) data (data + 4 - 1))
         = Content magic
      /\ Py.from_bytes_little magic = 0xFD2FB528.
Proof.
  induction fuel as [|fuel IH];
    intros byte_pos offset loaded st found st' Hself Hpos Hrun;
    [discriminate|].
  rewrite (find_data_frame_unfold net fuel _ _ _ _ Hself Hpos) in Hrun.
  destruct (net (List.length (sent st)) _) as [magic|] eqn:Hmagic;
    [|discriminate].
  destruct (Py.from_bytes_little magic =? 0x184D2A50).
  - destruct (net (S (List.length (sent st))) _) as [size|]; [|discriminate].
    pose proof (from_bytes_little_nonneg size) as Hsize.
    destruct ((fun H => IH _ _ loaded _ _ _ H (int_str _) Hrun) Hself)
      as (data & init & magic' & Hfound & Hle & Hsent & Hnet & Hdata).
    exists data,
      (Range (md_url loaded) offset (offset + 4 - 1)
       :: Range (md_url loaded) (offset + 4) (offset + 4 + 4 - 1) :: init),
      magic'.
    repeat split; [assumption | lia | | | assumption].
    + rewrite Hsent, sent_more_sent, <- app_assoc. reflexivity.
    + rewrite <- Hnet, sent_more_sent, length_app. cbn [List.length].
      f_equal. lia.
  - destruct (Py.from_bytes_little magic =? 0xFD2FB528) eqn:Hdata;
      [|discriminate].
    injection Hrun as <- <-. apply Z.eqb_eq in Hdata.
    exists offset, [], magic. rewrite Nat.add_0_r.
    repeat split; [assumption | lia | assumption..].
Qed.

(** A failed request ends a call of [find_data_frame] at once: the call
    raises [RequestException] exactly when its last request failed, and
    every other request was answered. *)
Lemma find_data_frame_transport fuel :
  forall byte_pos offset loaded st,
    self st = __init__ loaded ->
    Py.int byte_pos = Some offset ->
    exists more,
      snd (find_data_frame net fuel byte_pos st) = sent_more more st
      /\ match fst (find_data_frame net fuel byte_pos st) with
         | Raises RequestException =>
             exists init r,
               more = init ++ [r]
               /\ answered net (List.length (sent st)) init
               /\ net (List.length (sent st) + List.length init)%nat r
                  = TransportError
         | _ => answered net (List.length (sent st)) more
         end.
Proof.
  induction fuel as [|fuel IH]; intros byte_pos offset loaded st Hself Hpos.
  - exists []. cbn. now rewrite sent_more_nil.
  - rewrite (find_data_frame_unfold net fuel _ _ _ _ Hself Hpos).
    destruct (net (List.length (sent st)) _) as [magic|] eqn:Hmagic.
    + destruct (Py.from_bytes_little magic =? 0x184D2A50).
      * destruct (net (S (List.length (sent st))) _) as [size|] eqn:Hsize.
        -- destruct (IH (Py.str (offset + 8 + Py.from_bytes_little size))
                       _ loaded
                       (sent_more
                          [Range (md_url loaded) offset (offset + 4 - 1);
                           Range (md_url loaded) (offset + 4)
                             (offset + 4 + 4 - 1)] st)
                       Hself (int_str _))
             as (more & Hst & Hout).
           eexists (_ :: _ :: more). rewrite Hst, sent_more_more.
           split; [reflexivity|].
           rewrite sent_more_sent, length_app in Hout.
           cbn [List.length] in Hout.
           replace (List.length (sent st) + 2)%nat
             with (S (S (List.length (sent st)))) in Hout by lia.
           destruct (fst (find_data_frame net fuel _ _)) as [found|e|];
             [|destruct e|]; cbn [answered]; eauto 6.
           destruct Hout as (init & r & -> & Hinit & Hr).
           eexists (_ :: _ :: init), r. split; [reflexivity|].
           cbn [answered List.length]. rewrite <- Hr.
           repeat split; eauto. f_equal. lia.
        -- eexists [_; _]. split; [reflexivity|].
           eexists [_], _. split; [reflexivity|].
           cbn [answered List.length]. rewrite Nat.add_1_r. eauto.
      * destruct (Py.from_bytes_little magic =? 0xFD2FB528);
          eexists [_]; (split; [reflexivity|]); cbn [answered fst];
          repeat split; eauto.
    + eexists [_]. split; [reflexivity|].
      exists [], (Range (md_url loaded) offset (offset + 4 - 1)).
      cbn [answered List.length app]. now rewrite Nat.add_0_r.
Qed.

End LocatingOutcomes.

(** ** Whatever the remote side answers: walking blocks *)

Section BlocksAnyRemote.

Variable net : remote.

(** The requests of the loop of [get_frame_size]: three bytes each, at
    ascending offsets from the first block on; when the loop ends,
    [last_pos] is one of the offsets it visited. *)
Lemma traverse_blocks_trail fuel :
  forall previous offset st,
    exists more,
      snd (traverse_blocks net fuel
             {| is_last_block := 0; last_pos := previous;
                block_pos := Py.str offset |} st)
      = sent_more more st
      /\ Forall (asks (url (self st)) 3) more
      /\ ascending_from offset more
      /\ (forall l,
             fst (traverse_blocks net fuel
                    {| is_last_block := 0; last_pos := previous;
                       block_pos := Py.str offset |} st)
             = Returns l ->
             exists p, last_pos l = Some (Py.str p) /\ offset <= p).
Proof.
  induction fuel as [|fuel IH]; intros previous offset st.
  - exists []. cbn. rewrite sent_more_nil.
    repeat split; [constructor | discriminate].
  - rewrite traverse_blocks_unfold.
    destruct (net (List.length (sent st)) _) as [header|].
    + pose proof (from_bytes_little_nonneg header) as Hheader.
      apply (Z.shiftr_nonneg _ 3) in Hheader.
      destruct (Z.land (Py.from_bytes_little header) 1 =? 0).
      * destruct (IH (Some (Py.str offset))
                    (offset + 3 + Z.shiftr (Py.from_bytes_little header) 3)
                    (sent_more
                       [Range (url (self st)) offset (offset + 3 - 1)] st))
          as (more & Hst & Hasks & Hasc & Hret).
        eexists (_ :: more). rewrite Hst, sent_more_more.
        split; [reflexivity|]. split; [|split].
        -- constructor; [split; reflexivity | exact Hasks].
        -- cbn. split; [lia|].
           apply (ascending_weaken
                    (offset + 3 + Z.shiftr (Py.from_bytes_little header) 3));
             [lia | exact Hasc].
        -- intros l Hl. destruct (Hret l Hl) as (p & Hp & Hle).
           exists p. split; [assumption | lia].
      * eexists [_]. split; [reflexivity|].
        repeat split; try (cbn; lia); repeat constructor.
        intros l [= <-]. exists offset. split; [reflexivity | lia].
    + eexists [_]. split; [reflexivity|].
      repeat split; try discriminate; try (cbn; lia); repeat constructor.
Qed.

(** A failed request ends the loop at once. *)
Lemma traverse_blocks_transport fuel :
  forall previous offset st,
    exists more,
      snd (traverse_blocks net fuel
             {| is_last_block := 0; last_pos := previous;
                block_pos := Py.str offset |} st)
      = sent_more more st
      /\ match fst (traverse_blocks net fuel
                      {| is_last_block := 0; last_pos := previous;
                         block_pos := Py.str offset |} st) with
         | Raises RequestException =>
             exists init r,
               more = init ++ [r]
               /\ answered net (List.length (sent st)) init
               /\ net (List.length (sent st) + List.length init)%nat r
                  = TransportError
         | _ => answered net (List.length (sent st)) more
         end.
Proof.
  induction fuel as [|fuel IH]; intros previous offset st.
  - exists []. cbn. now rewrite sent_more_nil.
  - rewrite traverse_blocks_unfold.
    destruct (net (List.length (sent st)) _) as [header|] eqn:Hheader.
    + destruct (Z.land (Py.from_bytes_little header) 1 =? 0).
      * destruct (IH (Some (Py.str offset))
                    (offset + 3 + Z.shiftr (Py.from_bytes_little header) 3)
                    (sent_more
                       [Range (url (self st)) offset (offset + 3 - 1)] st))
          as (more & Hst & Hout).
        eexists (_ :: more). rewrite Hst, sent_more_more.
        split; [reflexivity|].
        rewrite sent_more_sent, length_app, Nat.add_1_r in Hout.
        destruct (fst (traverse_blocks net fuel _ _)) as [l|e|];
          [|destruct e|]; cbn [answered]; eauto.
        destruct Hout as (init & r & -> & Hinit & Hr).
        eexists (_ :: init), r. split; [reflexivity|].
        cbn [answered List.length]. rewrite <- Hr.
        repeat split; eauto. f_equal. lia.
      * eexists [_]. split; [reflexivity|]. cbn [answered fst]. eauto.
    + eexists [_]. split; [reflexivity|].
      exists [], (Range (url (self st)) offset (offset + 3 - 1)).
      cbn [answered List.length app]. now rewrite Nat.add_0_r.
Qed.

(** Without a header that has its least significant bit set, the loop
    runs on for as long as it is allowed to, one request per iteration. *)
Lemma traverse_blocks_runs_on u :
  (forall i first,
      exists header,
        net i (Range u first (first + 2)) = Content header
        /\ Z.land (Py.from_bytes_little header) 1 = 0) ->
  forall fuel previous offset st,
    url (self st) = u ->
    exists more,
      traverse_blocks net fuel
        {| is_last_block := 0; last_pos := previous;
           block_pos := Py.str offset |} st
      = (OutOfFuel, sent_more more st)
      /\ List.length more = fuel.
Proof.
  intros Hnet. induction fuel as [|fuel IH]; intros previous offset st Hurl.
  - exists []. cbn. now rewrite sent_more_nil.
  - rewrite traverse_blocks_unfold, Hurl.
    destruct (Hnet (List.length (sent st)) offset)
      as (header & Hheader & Hlast).
    replace (offset + 3 - 1) with (offset + 2) by lia.
    rewrite Hheader, Hlast. cbn [Z.eqb].
    destruct (IH (Some (Py.str offset))
                (offset + 3 + Z.shiftr (Py.from_bytes_little header) 3)
                (sent_more [Range u offset (offset + 2)] st) Hurl)
      as (more & Hrun & Hlen).
    eexists (_ :: more). rewrite Hrun, sent_more_more.
    split; [reflexivity|]. cbn. now rewrite Hlen.
Qed.

(** [get_frame_size] sends what its loop sends. *)
Lemma get_frame_size_state fuel byte_pos start st :
  Py.int byte_pos = Some start ->
  snd (get_frame_size net fuel byte_pos st)
  = snd (traverse_blocks net fuel
           {| is_last_block := 0; last_pos := None;
              block_pos := Py.str (start + 6) |} st).
Proof.
  intros Hpos. rewrite (get_frame_size_unfold net _ _ _ _ Hpos).
  destruct (traverse_blocks net fuel _ st) as [[l|e|] st']; try reflexivity.
  destruct (last_pos l) as [last|]; [|reflexivity].
  now destruct (Py.int last).
Qed.

(** A size that [get_frame_size] returns counts the six header bytes and
    the four checksum bytes at least. *)
Lemma get_frame_size_at_least fuel byte_pos start st frame_size :
  Py.int byte_pos = Some start ->
  fst (get_frame_size net fuel byte_pos st) = Returns frame_size ->
  10 <= frame_size.
Proof.
  intros Hpos. rewrite (get_frame_size_unfold net _ _ _ _ Hpos).
  destruct (traverse_blocks_trail fuel None (start + 6) st)
    as (more & _ & _ & _ & Hret).
  destruct (traverse_blocks net fuel _ st) as [[l|e|] st'];
    try discriminate.
  destruct (Hret l eq_refl) as (p & Hp & Hle). rewrite Hp, int_str.
  intros [= <-]. lia.
Qed.

(** A failed request ends [get_frame_size] at once. *)
Lemma get_frame_size_transport fuel byte_pos start st :
  Py.int byte_pos = Some start ->
  exists more,
    snd (get_frame_size net fuel byte_pos st) = sent_more more st
    /\ match fst (get_frame_size net fuel byte_pos st) with
       | Raises RequestException =>
           exists init r,
             more = init ++ [r]
             /\ answered net (List.length (sent st)) init
             /\ net (List.length (sent st) + List.length init)%nat r
                = TransportError
       | _ => answered net (List.length (sent st)) more
       end.
Proof.
  intros Hpos.
  destruct (traverse_blocks_transport fuel None (start + 6) st)
    as (more & Hst & Hout).
  exists more. rewrite (get_frame_size_state _ _ _ _ Hpos).
  split; [assumption|].
  rewrite (get_frame_size_unfold net _ _ _ _ Hpos).
  destruct (traverse_blocks net fuel _ st) as [[l|e|] st'];
    cbn [fst] in *; try assumption.
  destruct (last_pos l) as [last|]; [|assumption].
  now destruct (Py.int last).
Qed.

End BlocksAnyRemote.

(** ** The saved position plays no part *)

Section Blind.

Variable net : remote.

Lemma same_but_position_refl st : same_but_position st st.
Proof. now repeat split. Qed.

Lemma blind_ret {A} (a : A) : blind (ret a).
Proof. now intros st1 st2 H. Qed.

Lemma blind_raise {A} e : blind (@raise A e).
Proof. now intros st1 st2 H. Qed.

Lemma blind_out_of_fuel {A} : blind (@out_of_fuel A).
Proof. now intros st1 st2 H. Qed.

Lemma blind_or_raise {A} e (o : option A) : blind (or_raise e o).
Proof. destruct o; [apply blind_ret | apply blind_raise]. Qed.

Lemma blind_attr_url : blind (attr url).
Proof. intros st1 st2 H. split; [|exact H]. cbn. f_equal. apply H. Qed.

Lemma blind_attr_skippable : blind (attr SKIPPABLE_MAGIC_NUMBER).
Proof. intros st1 st2 H. split; [|exact H]. cbn. f_equal. apply H. Qed.

Lemma blind_attr_frame : blind (attr FRAME_MAGIC_NUMBER).
Proof. intros st1 st2 H. split; [|exact H]. cbn. f_equal. apply H. Qed.

Lemma blind_print line : blind (print line).
Proof.
  intros st1 st2 (Hurl & Hframe & Hskippable & Hsent & Hout).
  split; [reflexivity|]. unfold same_but_position. cbn.
  now rewrite Hout.
Qed.

Lemma blind_bind {A B} (c : M A) (k : A -> M B) :
  blind c -> (forall a, blind (k a)) -> blind (bind c k).
Proof.
  intros Hc Hk st1 st2 H. unfold bind. destruct (Hc st1 st2 H) as [Hfst Hsnd].
  destruct (c st1) as [o1 st1'], (c st2) as [o2 st2']. cbn in Hfst, Hsnd.
  subst o2. destruct o1 as [a|e|]; [now apply Hk | now split..].
Qed.

Lemma blind_requests_get u first last : blind (requests_get net u first last).
Proof.
  intros st1 st2 (Hurl & Hframe & Hskippable & Hsent & Hout).
  unfold requests_get. rewrite Hsent.
  destruct (net _ _); (split; [reflexivity|]);
    unfold same_but_position; cbn; now rewrite Hsent.
Qed.

Ltac step :=
  first [ apply blind_ret | apply blind_raise | apply blind_out_of_fuel
        | apply blind_or_raise | apply blind_attr_url
        | apply blind_attr_skippable | apply blind_attr_frame
        | apply blind_print | apply blind_requests_get
        | match goal with H : forall _, blind _ |- _ => apply H end
        | match goal with H : forall _ _, blind _ |- _ => apply H end
        | apply blind_bind; [|intros ?]
        | match goal with
          | |- blind (if ?b then _ else _) => destruct b
          end ].

Lemma blind_get_n_bytes start_byte n_range :
  blind (get_n_bytes net start_byte n_range).
Proof. unfold get_n_bytes. repeat step. Qed.

Lemma blind_skip_frame byte_pos : blind (skip_frame net byte_pos).
Proof. unfold skip_frame. pose proof blind_get_n_bytes. repeat step. Qed.

Lemma blind_find_data_frame fuel byte_pos :
  blind (find_data_frame net fuel byte_pos).
Proof.
  revert byte_pos. induction fuel as [|fuel IH]; intros byte_pos; simpl.
  - apply blind_raise.
  - pose proof blind_get_n_bytes. pose proof blind_skip_frame. repeat step.
Qed.

Lemma blind_check_block_header byte_pos :
  blind (check_block_header net byte_pos).
Proof. unfold check_block_header. pose proof blind_get_n_bytes. repeat step. Qed.

Lemma blind_traverse_blocks fuel l : blind (traverse_blocks net fuel l).
Proof.
  revert l. induction fuel as [|fuel IH]; intros l; simpl.
  - repeat step.
  - destruct (is_last_block l =? 0); [|apply blind_ret].
    apply blind_bind; [apply blind_check_block_header|].
    intros [is_last next]. apply IH.
Qed.

Lemma blind_get_frame_size fuel byte_pos :
  blind (get_frame_size net fuel byte_pos).
Proof. unfold get_frame_size. pose proof blind_traverse_blocks. repeat step. Qed.

Lemma blind_download_frame fuel byte_pos :
  blind (download_frame net fuel byte_pos).
Proof.
  unfold download_frame. pose proof blind_find_data_frame.
  pose proof blind_get_frame_size. repeat step.
Qed.

End Blind.

(** ** Bounds on what a response decodes to *)

Section Bounds.

Lemma from_bytes_little_below (bs : list byte) :
  Py.from_bytes_little bs < 256 ^ Z.of_nat (List.length bs).
Proof.
  induction bs as [|b bs IH]; [cbn; lia|].
  cbn [Py.from_bytes_little List.length].
  rewrite Nat2Z.inj_succ, Z.pow_succ_r by lia.
  pose proof (Byte.to_N_bounded b). lia.
Qed.

Lemma land_one_is_bit (h : Z) : Z.land h 1 = 0 \/ Z.land h 1 = 1.
Proof.
  pose proof (Z.land_ones h 1 ltac:(lia)) as H.
  change (Z.ones 1) with 1 in H. change (2 ^ 1) with 2 in H.
  pose proof (Z.mod_pos_bound h 2). lia.
Qed.

End Bounds.

(** ** Whole calls of [download_frame] *)

Section Downloading.

Variable net : remote.

Lemma download_frame_unfold fuel byte_pos st :
  download_frame net fuel byte_pos st
  = match find_data_frame net fuel byte_pos st with
    | (Returns found, st1) =>
        match get_frame_size net fuel found st1 with
        | (Returns frame_size, st2) =>
            (Returns tt,
             {| self := self st2; sent := sent st2;
                stdout := stdout st2
                          ++ [("frame_size:  " ++ Py.str frame_size)%string] |})
        | (Raises e, st2) => (Raises e, st2)
        | (OutOfFuel, st2) => (OutOfFuel, st2)
        end
    | (Raises e, st1) => (Raises e, st1)
    | (OutOfFuel, st1) => (OutOfFuel, st1)
    end.
Proof.
  unfold download_frame, bind.
  now destruct (find_data_frame net fuel byte_pos st) as [[found|e|] st1].
Qed.

(** The requests of a call of [download_frame]: first those of
    [find_data_frame], then those of the loop of [get_frame_size]. *)
Lemma download_frame_trail fuel byte_pos offset loaded st :
  self st = __init__ loaded ->
  Py.int byte_pos = Some offset ->
  exists more,
    sent (snd (download_frame net fuel byte_pos st)) = sent st ++ more
    /\ Forall (fun r => asks (md_url loaded) 4 r \/ asks (md_url loaded) 3 r)
         more
    /\ ascending_from offset more.
Proof.
  intros Hself Hpos.
  destruct (find_data_frame_trail net fuel _ _ _ _ Hself Hpos)
    as (more1 & Hst1 & Hasks1 & Hasc1 & Hret1).
  assert (Hfour : Forall (fun r => asks (md_url loaded) 4 r
                                   \/ asks (md_url loaded) 3 r) more1)
    by (apply (Forall_impl _ (fun r H => or_introl H) Hasks1)).
  rewrite download_frame_unfold.
  destruct (find_data_frame net fuel byte_pos st) as [[found|e|] st1];
    cbn [fst snd] in *; subst st1; [|now exists more1..].
  destruct (Hret1 found eq_refl) as (data & Hfound & Hle & Hbound).
  destruct (traverse_blocks_trail net fuel None (data + 6)
              (sent_more more1 st))
    as (more2 & Hst2 & Hasks2 & Hasc2 & _).
  rewrite <- (get_frame_size_state net _ _ _ _ Hfound) in Hst2.
  cbn [self sent_more] in Hasks2. rewrite Hself in Hasks2.
  cbn [url __init__] in Hasks2.
  exists (more1 ++ more2). split; [|split].
  - destruct (get_frame_size net fuel found (sent_more more1 st))
      as [[frame_size|e|] st2]; cbn [snd] in *; subst st2; cbn;
      now rewrite app_assoc.
  - apply Forall_app. split; [assumption|].
    apply (Forall_impl _ (fun r H => or_intror H) Hasks2).
  - apply (ascending_app offset (data + 6)); [lia | assumption | | assumption].
    apply (Forall_impl _ (fun r (H : first_byte r <= data) =>
                            Z.le_lt_trans _ _ (data + 6) H ltac:(lia))
             Hbound).
Qed.

(** A failed request ends [download_frame] at once. *)
Lemma download_frame_transport fuel byte_pos offset loaded st :
  self st = __init__ loaded ->
  Py.int byte_pos = Some offset ->
  exists more,
    sent (snd (download_frame net fuel byte_pos st)) = sent st ++ more
    /\ match fst (download_frame net fuel byte_pos st) with
       | Raises RequestException =>
           exists init r,
             more = init ++ [r]
             /\ answered net (List.length (sent st)) init
             /\ net (List.length (sent st) + List.length init)%nat r
                = TransportError
       | _ => answered net (List.length (sent st)) more
       end.
Proof.
  intros Hself Hpos.
  destruct (find_data_frame_trail net fuel _ _ _ _ Hself Hpos)
    as (more0 & _ & _ & _ & Hret1).
  destruct (find_data_frame_transport net fuel _ _ _ _ Hself Hpos)
    as (more1 & Hst1 & Hout1).
  rewrite download_frame_unfold.
  destruct (find_data_frame net fuel byte_pos st) as [[found|e|] st1];
    cbn [fst snd] in *; subst st1; [|now exists more1..].
  destruct (Hret1 found eq_refl) as (data & Hfound & _).
  destruct (get_frame_size_transport net fuel found data
              (sent_more more1 st) Hfound) as (more2 & Hst2 & Hout2).
  rewrite sent_more_sent, length_app in Hout2.
  exists (more1 ++ more2).
  destruct (get_frame_size net fuel found (sent_more more1 st))
    as [[frame_size|e|] st2]; cbn [fst snd] in *; subst st2;
    (split; [cbn; now rewrite app_assoc|]);
    [|destruct e|]; try (apply answered_app; now split).
  destruct Hout2 as (init & r & -> & Hinit & Hr).
  exists (more1 ++ init), r. rewrite app_assoc, length_app, Nat.add_assoc.
  repeat split; [|assumption]. apply answered_app. now split.
Qed.

End Downloading.

(** ** Further properties of the frame walker *)

(** X1 -- on a frame whose blocks form a chain, [get_frame_size] returns
    the distance from the start of the frame to the start of its last
    block, plus four: the six header bytes, every block but the last with
    its three-byte header, and the checksum.  The content size of the last
    block does not enter. *)
Theorem get_frame_size_measures_to_last_block
  (net : remote) (byte_pos : string) (start : Z) (sizes : list Z)
  (fuel : nat) (st : state) :
  block_chain net (url (self st)) (start + 6) sizes ->
  Py.int byte_pos = Some start ->
  (List.length sizes <= fuel)%nat ->
  fst (get_frame_size net fuel byte_pos st)
  = Returns (6 + blocks_span (removelast sizes) + 4).
Proof.
  intros Hchain Hpos Hfuel.
  now rewrite (get_frame_size_walks net _ _ _ _ _ Hchain Hpos Hfuel).
Qed.

Lemma get_frame_size_measures_to_last_block_witness :
  fst (get_frame_size (serve two_block_frame) 2 "0" (fresh sample_metadata))
  = Returns (6 + (3 + 5) + 4).
Proof.
  apply (get_frame_size_measures_to_last_block (serve two_block_frame) "0" 0
           [5; 2] 2 (fresh sample_metadata)).
  - apply (chain_more _ _ 6 [x28; x00; x00] [2]).
    + intros i. reflexivity.
    + reflexivity.
    + apply (chain_last _ _ 14 [x11; x00; x00]).
      * intros i. reflexivity.
      * reflexivity.
  - reflexivity.
  - simpl. lia.
Defined.

(** X2 -- when every three-byte request is answered with a header whose
    least significant bit is clear, [get_frame_size] never comes to an
    end: whatever number of iterations it is given, it uses them all, one
    request each, and has neither returned nor raised. *)
Theorem get_frame_size_runs_on_without_last_block
  (net : remote) (fuel : nat) (byte_pos : string) (start : Z) (st : state) :
  Py.int byte_pos = Some start ->
  (forall i first,
      exists header,
        net i (Range (url (self st)) first (first + 2)) = Content header
        /\ Z.land (Py.from_bytes_little header) 1 = 0) ->
  fst (get_frame_size net fuel byte_pos st) = OutOfFuel
  /\ List.length (sent (snd (get_frame_size net fuel byte_pos st)))
     = (List.length (sent st) + fuel)%nat.
Proof.
  intros Hpos Hnet.
  destruct (traverse_blocks_runs_on net _ Hnet fuel None (start + 6) st
              eq_refl) as (more & Hrun & Hlen).
  rewrite (get_frame_size_unfold net _ _ _ _ Hpos), Hrun.
  split; [reflexivity|]. cbn. now rewrite length_app, Hlen.
Qed.

Lemma get_frame_size_runs_on_without_last_block_witness :
  fst (get_frame_size all_zero 7 "0" (fresh sample_metadata)) = OutOfFuel
  /\ List.length
       (sent (snd (get_frame_size all_zero 7 "0" (fresh sample_metadata))))
     = (0 + 7)%nat.
Proof.
  apply (get_frame_size_runs_on_without_last_block all_zero 7 "0" 0
           (fresh sample_metadata)).
  - reflexivity.
  - intros i first. exists [x00; x00; x00]. split; reflexivity.
Defined.



(** X4 -- whatever the remote side answers, an offset that
    [find_data_frame] returns is at or after the one it was given, and
    the last request of the call read the four bytes there and found the
    data-frame magic number. *)
Theorem find_data_frame_returns_data_frame
  (net : remote) (fuel : nat) (byte_pos : string) (offset : Z)
  (loaded : Metadata) (st st' : state) (found : string) :
  self st = __init__ loaded ->
  Py.int byte_pos = Some offset ->
  find_data_frame net fuel byte_pos st = (Returns found, st') ->
  exists data init magic,
    Py.int found = Some data
    /\ offset <= data
    /\ sent st' = sent st ++ init ++ [Range (md_url loaded) data (data + 3)]
    /\ net (List.length (sent st) + List.length init)%nat
           (Range (md_url loaded) data (data + 3))
       = Content magic
    /\ Py.from_bytes_little magic = 0xFD2FB528.
Proof.
  intros Hself Hpos Hrun.
  destruct (find_data_frame_sound net fuel _ _ _ _ _ _ Hself Hpos Hrun)
    as (data & init & magic & H).
  exists data, init, magic.
  now replace (data + 3) with (data + 4 - 1) by lia.
Qed.

Lemma find_data_frame_returns_data_frame_witness :
  exists data init magic,
    Py.int "18" = Some data
    /\ 0 <= data
    /\ sent (sent_more [Range (md_url sample_metadata) 0 3;
                        Range (md_url sample_metadata) 4 7;
                        Range (md_url sample_metadata) 18 21]
               (fresh sample_metadata))
       = sent (fresh sample_metadata)
         ++ init ++ [Range (md_url sample_metadata) data (data + 3)]
    /\ serve skippable_then_frame
         (List.length (sent (fresh sample_metadata)) + List.length init)%nat
         (Range (md_url sample_metadata) data (data + 3))
       = Content magic
    /\ Py.from_bytes_little magic = 0xFD2FB528.
Proof.
  apply (find_data_frame_returns_data_frame (serve skippable_then_frame) 2
           "0" 0 sample_metadata (fresh sample_metadata)
           (sent_more [Range (md_url sample_metadata) 0 3;
                       Range (md_url sample_metadata) 4 7;
                       Range (md_url sample_metadata) 18 21]
              (fresh sample_metadata))
           "18"); reflexivity.
Defined.

(** X5 -- whatever the remote side answers and however the call ends,
    every request of [download_frame] goes to the URL of the object and
    asks for four bytes or for three: the payload of a frame is never
    asked for. *)
Theorem download_frame_reads_headers_only
  (net : remote) (fuel : nat) (byte_pos : string) (offset : Z)
  (loaded : Metadata) (st : state) :
  self st = __init__ loaded ->
  Py.int byte_pos = Some offset ->
  exists more,
    sent (snd (download_frame net fuel byte_pos st)) = sent st ++ more
    /\ Forall (fun r =>
                 req_url r = md_url loaded
                 /\ (last_byte r = first_byte r + 3
                     \/ last_byte r = first_byte r + 2))
         more.
Proof.
  intros Hself Hpos.
  destruct (download_frame_trail net fuel _ _ _ _ Hself Hpos)
    as (more & Hsent & Hasks & _).
  exists more. split; [assumption|].
  apply (Forall_impl _ (P := fun r => asks (md_url loaded) 4 r
                                      \/ asks (md_url loaded) 3 r));
    [|assumption].
  intros r [[Hurl Hlast]|[Hurl Hlast]]; (split; [assumption | lia]).
Qed.

Lemma download_frame_reads_headers_only_witness :
  exists more,
    sent (snd (download_frame (serve skippable_then_two_blocks) 2 "0"
                 (fresh sample_metadata)))
    = sent (fresh sample_metadata) ++ more
    /\ Forall (fun r =>
                 req_url r = md_url sample_metadata
                 /\ (last_byte r = first_byte r + 3
                     \/ last_byte r = first_byte r + 2))
         more.
Proof.
  apply (download_frame_reads_headers_only (serve skippable_then_two_blocks)
           2 "0" 0 sample_metadata (fresh sample_metadata));
    reflexivity.
Defined.

(** X6 -- whatever the remote side answers and however the call ends,
    the requests of [download_frame] start at ascending offsets, none
    below the offset the call was given: nothing is read twice and the
    walk never turns back. *)
Theorem download_frame_never_turns_back
  (net : remote) (fuel : nat) (byte_pos : string) (offset : Z)
  (loaded : Metadata) (st : state) :
  self st = __init__ loaded ->
  Py.int byte_pos = Some offset ->
  exists more,
    sent (snd (download_frame net fuel byte_pos st)) = sent st ++ more
    /\ ascending_from offset more.
Proof.
  intros Hself Hpos.
  destruct (download_frame_trail net fuel _ _ _ _ Hself Hpos)
    as (more & Hsent & _ & Hasc).
  now exists more.
Qed.

Lemma download_frame_never_turns_back_witness :
  exists more,
    sent (snd (download_frame (serve skippable_then_two_blocks) 2 "0"
                 (fresh sample_metadata)))
    = sent (fresh sample_metadata) ++ more
    /\ ascending_from 0 more.
Proof.
  apply (download_frame_never_turns_back (serve skippable_then_two_blocks)
           2 "0" 0 sample_metadata (fresh sample_metadata));
    reflexivity.
Defined.

(** X7 -- [download_frame] prints one line, the size, exactly when it
    returns, and that size is at least 10; a call that ends in any other
    way has printed nothing. *)
Theorem download_frame_prints_only_on_success
  (net : remote) (fuel : nat) (byte_pos : string) (offset : Z)
  (loaded : Metadata) (st : state) :
  self st = __init__ loaded ->
  Py.int byte_pos = Some offset ->
  (exists frame_size,
      fst (download_frame net fuel byte_pos st) = Returns tt
      /\ stdout (snd (download_frame net fuel byte_pos st))
         = stdout st ++ [("frame_size:  " ++ Py.str frame_size)%string]
      /\ 10 <= frame_size)
  \/ (fst (download_frame net fuel byte_pos st) <> Returns tt
      /\ stdout (snd (download_frame net fuel byte_pos st)) = stdout st).
Proof.
  intros Hself Hpos.
  destruct (find_data_frame_trail net fuel _ _ _ _ Hself Hpos)
    as (more & _ & _ & _ & Hret).
  pose proof (preserves_find_data_frame net stdout (fun _ _ => eq_refl)
                fuel byte_pos st) as Hout1.
  rewrite download_frame_unfold.
  destruct (find_data_frame net fuel byte_pos st) as [[found|e|] st1];
    cbn [fst snd] in *; [|right; split; [discriminate|assumption]..].
  destruct (Hret found eq_refl) as (data & Hfound & _).
  pose proof (preserves_get_frame_size net stdout (fun _ _ => eq_refl)
                fuel found st1) as Hout2.
  pose proof (get_frame_size_at_least net fuel found data st1) as Hsize.
  destruct (get_frame_size net fuel found st1) as [[frame_size|e|] st2];
    cbn [fst snd] in *;
    [|right; split; [discriminate|congruence]..].
  left. exists frame_size. cbn [stdout]. rewrite Hout2, Hout1.
  repeat split. now apply Hsize.
Qed.

Lemma download_frame_prints_only_on_success_witness :
  (exists frame_size,
      fst (download_frame (serve skippable_then_two_blocks) 2 "0"
             (fresh sample_metadata)) = Returns tt
      /\ stdout (snd (download_frame (serve skippable_then_two_blocks) 2 "0"
                        (fresh sample_metadata)))
         = stdout (fresh sample_metadata)
           ++ [("frame_size:  " ++ Py.str frame_size)%string]
      /\ 10 <= frame_size)
  \/ (fst (download_frame (serve skippable_then_two_blocks) 2 "0"
             (fresh sample_metadata)) <> Returns tt
      /\ stdout (snd (download_frame (serve skippable_then_two_blocks) 2 "0"
                        (fresh sample_metadata)))
         = stdout (fresh sample_metadata)).
Proof.
  apply (download_frame_prints_only_on_success
           (serve skippable_then_two_blocks) 2 "0" 0 sample_metadata
           (fresh sample_metadata));
    reflexivity.
Defined.

(** X8 -- the position saved in the metadata is never read: two objects
    that share the URL and the magic numbers, started on the same offset
    with the same requests behind them, end in the same way, having sent
    the same requests and printed the same lines.  In particular the
    module's own run is the same whatever position the metadata held. *)
Theorem saved_position_is_never_read
  (net : remote) (fuel : nat) (byte_pos : string) (st1 st2 : state) :
  same_but_position st1 st2 ->
  fst (download_frame net fuel byte_pos st1)
  = fst (download_frame net fuel byte_pos st2)
  /\ sent (snd (download_frame net fuel byte_pos st1))
     = sent (snd (download_frame net fuel byte_pos st2))
  /\ stdout (snd (download_frame net fuel byte_pos st1))
     = stdout (snd (download_frame net fuel byte_pos st2)).
Proof.
  intros Hsame.
  destruct (blind_download_frame net fuel byte_pos st1 st2 Hsame)
    as (Hfst & _ & _ & _ & Hsent & Hout).
  now repeat split.
Qed.

Lemma saved_position_is_never_read_witness :
  fst (script (serve skippable_then_two_blocks) 2 sample_metadata)
  = fst (script (serve skippable_then_two_blocks) 2
           {| md_url := md_url sample_metadata; md_current_pos := 6404046 |})
  /\ sent (snd (script (serve skippable_then_two_blocks) 2 sample_metadata))
     = sent (snd (script (serve skippable_then_two_blocks) 2
                    {| md_url := md_url sample_metadata;
                       md_current_pos := 6404046 |}))
  /\ stdout (snd (script (serve skippable_then_two_blocks) 2 sample_metadata))
     = stdout (snd (script (serve skippable_then_two_blocks) 2
                      {| md_url := md_url sample_metadata;
                         md_current_pos := 6404046 |})).
Proof.
  apply (saved_position_is_never_read (serve skippable_then_two_blocks) 2 "0"
           (fresh sample_metadata)
           (fresh {| md_url := md_url sample_metadata;
                     md_current_pos := 6404046 |})).
  repeat split.
Defined.

(** X9 -- a request that fails ends [download_frame] at once, with
    [RequestException]: the call raises it exactly when the last request
    it sent failed, and every request before that one, or every request
    when the call ends otherwise, was answered.  Nothing is retried and no
    failure is passed over. *)
Theorem transport_failure_ends_the_call
  (net : remote) (fuel : nat) (byte_pos : string) (offset : Z)
  (loaded : Metadata) (st : state) :
  self st = __init__ loaded ->
  Py.int byte_pos = Some offset ->
  exists more,
    sent (snd (download_frame net fuel byte_pos st)) = sent st ++ more
    /\ ((fst (download_frame net fuel byte_pos st) = Raises RequestException
         /\ exists init r,
             more = init ++ [r]
             /\ answered net (List.length (sent st)) init
             /\ net (List.length (sent st) + List.length init)%nat r
                = TransportError)
        \/ (fst (download_frame net fuel byte_pos st)
            <> Raises RequestException
            /\ answered net (List.length (sent st)) more)).
Proof.
  intros Hself Hpos.
  destruct (download_frame_transport net fuel _ _ _ _ Hself Hpos)
    as (more & Hsent & Hout).
  exists more. split; [assumption|].
  destruct (fst (download_frame net fuel byte_pos st)) as [u|e|];
    [|destruct e|];
    try (right; split; [discriminate | assumption]).
  left. split; [reflexivity | assumption].
Qed.

Lemma transport_failure_ends_the_call_witness :
  exists more,
    sent (snd (download_frame (serve_failing_at 3 skippable_then_two_blocks)
                 2 "0" (fresh sample_metadata)))
    = sent (fresh sample_metadata) ++ more
    /\ ((fst (download_frame (serve_failing_at 3 skippable_then_two_blocks)
                2 "0" (fresh sample_metadata))
         = Raises RequestException
         /\ exists init r,
             more = init ++ [r]
             /\ answered (serve_failing_at 3 skippable_then_two_blocks)
                  (List.length (sent (fresh sample_metadata))) init
             /\ serve_failing_at 3 skippable_then_two_blocks
                  (List.length (sent (fresh sample_metadata))
                   + List.length init)%nat r
                = TransportError)
        \/ (fst (download_frame (serve_failing_at 3 skippable_then_two_blocks)
                   2 "0" (fresh sample_metadata))
            <> Raises RequestException
            /\ answered (serve_failing_at 3 skippable_then_two_blocks)
                 (List.length (sent (fresh sample_metadata))) more)).
Proof.
  apply (transport_failure_ends_the_call
           (serve_failing_at 3 skippable_then_two_blocks) 2 "0" 0
           sample_metadata (fresh sample_metadata));
    reflexivity.
Defined.

(** X10 -- when a request brings back exactly the bytes asked for, a step
    is bounded from above as well: four size bytes make [skip_frame] move
    on by less than [8 + 2^32], and three header bytes make
    [check_block_header] return a flag that is 0 or 1 and move on by less
    than [3 + 2^21]. *)
Theorem steps_are_bounded_on_exact_reads
  (net : remote) (byte_pos : string) (offset : Z) (st : state) :
  Py.int byte_pos = Some offset ->
  (forall size,
      net (List.length (sent st))
          (Range (url (self st)) (offset + 4) (offset + 7)) = Content size ->
      List.length size = 4%nat ->
      exists next,
        fst (skip_frame net byte_pos st) = Returns (Py.str next)
        /\ offset + 8 <= next < offset + 8 + 2 ^ 32)
  /\ (forall header,
      net (List.length (sent st))
          (Range (url (self st)) offset (offset + 2)) = Content header ->
      List.length header = 3%nat ->
      exists is_last next,
        fst (check_block_header net byte_pos st)
        = Returns (is_last, Py.str next)
        /\ (is_last = 0 \/ is_last = 1)
        /\ offset + 3 <= next < offset + 3 + 2 ^ 21).
Proof.
  intros Hpos. split.
  - intros size Hnet Hlen.
    replace (offset + 7) with (offset + 4 + 4 - 1) in Hnet by lia.
    rewrite (skip_frame_run net _ _ _ _ Hpos Hnet).
    exists (offset + 8 + Py.from_bytes_little size).
    pose proof (from_bytes_little_nonneg size).
    pose proof (from_bytes_little_below size) as Hbelow.
    rewrite Hlen in Hbelow. change (256 ^ Z.of_nat 4) with (2 ^ 32) in Hbelow.
    split; [reflexivity | lia].
  - intros header Hnet Hlen.
    replace (offset + 2) with (offset + 3 - 1) in Hnet by lia.
    rewrite (check_block_header_run net _ _ _ _ Hpos Hnet).
    exists (Z.land (Py.from_bytes_little header) 1),
           (offset + 3 + Z.shiftr (Py.from_bytes_little header) 3).
    pose proof (from_bytes_little_nonneg header) as Hlow.
    pose proof (from_bytes_little_below header) as Hbelow.
    rewrite Hlen in Hbelow.
    change (256 ^ Z.of_nat 3) with (2 ^ 3 * 2 ^ 21) in Hbelow.
    pose proof (proj2 (Z.shiftr_nonneg _ 3) Hlow) as Hshift.
    assert (Z.shiftr (Py.from_bytes_little header) 3 < 2 ^ 21).
    { rewrite Z.shiftr_div_pow2 by lia.
      apply Z.div_lt_upper_bound; [lia | assumption]. }
    split; [reflexivity|]. split; [apply land_one_is_bit | lia].
Qed.

Lemma steps_are_bounded_on_exact_reads_witness :
  (exists next,
      fst (skip_frame (serve skippable_then_frame) "0" (fresh sample_metadata))
      = Returns (Py.str next)
      /\ 0 + 8 <= next < 0 + 8 + 2 ^ 32)
  /\ (exists is_last next,
      fst (check_block_header (serve two_block_frame) "6"
             (fresh sample_metadata))
      = Returns (is_last, Py.str next)
      /\ (is_last = 0 \/ is_last = 1)
      /\ 6 + 3 <= next < 6 + 3 + 2 ^ 21).
Proof.
  split.
  - apply (proj1 (steps_are_bounded_on_exact_reads
                    (serve skippable_then_frame) "0" 0
                    (fresh sample_metadata) eq_refl)
             [x0a; x00; x00; x00]); reflexivity.
  - apply (proj2 (steps_are_bounded_on_exact_reads
                    (serve two_block_frame) "6" 6
                    (fresh sample_metadata) eq_refl)
             [x28; x00; x00]); reflexivity.
Defined.

(** ** The ways a call can end *)

Section Endings.

Variable net : remote.

(** At a parsable offset [find_data_frame] returns, runs out of room for
    nested calls, fails on a request, or raises its own exception; in the
    last case the bytes it has just read are neither magic number. *)
Lemma find_data_frame_endings fuel :
  forall byte_pos offset loaded st,
    self st = __init__ loaded ->
    Py.int byte_pos = Some offset ->
    (exists found, fst (find_data_frame net fuel byte_pos st) = Returns found)
    \/ fst (find_data_frame net fuel byte_pos st) = Raises RequestException
    \/ fst (find_data_frame net fuel byte_pos st) = Raises RecursionError
    \/ (fst (find_data_frame net fuel byte_pos st)
        = Raises (Exception_
                    "Could not find frame magic number in zstd file.")
        /\ exists at_offset init magic,
            offset <= at_offset
            /\ sent (snd (find_data_frame net fuel byte_pos st))
               = sent st ++ init
                 ++ [Range (md_url loaded) at_offset (at_offset + 4 - 1)]
            /\ net (List.length (sent st) + List.length init)%nat
                   (Range (md_url loaded) at_offset (at_offset + 4 - 1))
               = Content magic
            /\ Py.from_bytes_little magic <> 0x184D2A50
            /\ Py.from_bytes_little magic <> 0xFD2FB528).
Proof.
  induction fuel as [|fuel IH]; intros byte_pos offset loaded st Hself Hpos;
    [now right; right; left|].
  rewrite (find_data_frame_unfold net fuel _ _ _ _ Hself Hpos).
  destruct (net (List.length (sent st)) _) as [magic|] eqn:Hmagic;
    [|now right; left].
  destruct (Z.eqb_spec (Py.from_bytes_little magic) 0x184D2A50)
    as [Hskippable|Hskippable].
  - destruct (net (S (List.length (sent st))) _) as [size|];
      [|now right; left].
    pose proof (from_bytes_little_nonneg size) as Hsize.
    destruct (IH (Py.str (offset + 8 + Py.from_bytes_little size)) _ loaded
                (sent_more
                   [Range (md_url loaded) offset (offset + 4 - 1);
                    Range (md_url loaded) (offset + 4) (offset + 4 + 4 - 1)]
                   st) Hself (int_str _))
      as [Hend|[Hend|[Hend|(Hend & at_offset & init & magic' & Hle & Hsent
                            & Hnet & Hnot)]]];
      [now left | now right; left | now right; right; left|].
    right; right; right. split; [assumption|].
    exists at_offset,
      (Range (md_url loaded) offset (offset + 4 - 1)
       :: Range (md_url loaded) (offset + 4) (offset + 4 + 4 - 1) :: init),
      magic'.
    repeat split; [lia | | | apply Hnot..].
    + rewrite Hsent, sent_more_sent, <- app_assoc. reflexivity.
    + rewrite <- Hnet, sent_more_sent, length_app. cbn [List.length].
      f_equal. lia.
  - destruct (Z.eqb_spec (Py.from_bytes_little magic) 0xFD2FB528)
      as [Hdata|Hdata]; [left; now exists byte_pos|].
    right; right; right. split; [reflexivity|].
    exists offset, [], magic. rewrite Nat.add_0_r.
    repeat split; [lia | assumption..].
Qed.

Lemma traverse_blocks_endings fuel :
  forall previous offset st,
    (exists l,
        fst (traverse_blocks net fuel
               {| is_last_block := 0; last_pos := previous;
                  block_pos := Py.str offset |} st) = Returns l)
    \/ fst (traverse_blocks net fuel
              {| is_last_block := 0; last_pos := previous;
                 block_pos := Py.str offset |} st)
       = Raises RequestException
    \/ fst (traverse_blocks net fuel
              {| is_last_block := 0; last_pos := previous;
                 block_pos := Py.str offset |} st)
       = OutOfFuel.
Proof.
  induction fuel as [|fuel IH]; intros previous offset st;
    [now right; right|].
  rewrite traverse_blocks_unfold.
  destruct (net (List.length (sent st)) _) as [header|]; [|now right; left].
  destruct (Z.land (Py.from_bytes_little header) 1 =? 0);
    [apply IH | left; eexists; reflexivity].
Qed.

Lemma get_frame_size_endings fuel byte_pos start st :
  Py.int byte_pos = Some start ->
  (exists frame_size,
      fst (get_frame_size net fuel byte_pos st) = Returns frame_size)
  \/ fst (get_frame_size net fuel byte_pos st) = Raises RequestException
  \/ fst (get_frame_size net fuel byte_pos st) = OutOfFuel.
Proof.
  intros Hpos. rewrite (get_frame_size_unfold net _ _ _ _ Hpos).
  destruct (traverse_blocks_trail net fuel None (start + 6) st)
    as (more & _ & _ & _ & Hret).
  destruct (traverse_blocks_endings fuel None (start + 6) st)
    as [[l Hend]|[Hend|Hend]];
    destruct (traverse_blocks net fuel _ st) as [[l'|e|] st'];
    cbn [fst] in *; try discriminate;
    [|injection Hend as ->; now right; left | now right; right].
  destruct (Hret l' eq_refl) as (p & Hp & _). rewrite Hp, int_str.
  left. eexists. reflexivity.
Qed.

End Endings.

(** The ways [download_frame] can end at a parsable offset. *)
Lemma download_frame_endings
  (net : remote) (fuel : nat) (byte_pos : string) (offset : Z)
  (loaded : Metadata) (st : state) :
  self st = __init__ loaded ->
  Py.int byte_pos = Some offset ->
  fst (download_frame net fuel byte_pos st) = Returns tt
  \/ fst (download_frame net fuel byte_pos st) = Raises RequestException
  \/ fst (download_frame net fuel byte_pos st) = Raises RecursionError
  \/ fst (download_frame net fuel byte_pos st)
     = Raises (Exception_ "Could not find frame magic number in zstd file.")
  \/ fst (download_frame net fuel byte_pos st) = OutOfFuel.
Proof.
  intros Hself Hpos.
  destruct (find_data_frame_trail net fuel _ _ _ _ Hself Hpos)
    as (more & _ & _ & _ & Hret).
  rewrite download_frame_unfold.
  destruct (find_data_frame_endings net fuel _ _ _ _ Hself Hpos)
    as [[found Hend]|[Hend|[Hend|[Hend _]]]];
    destruct (find_data_frame net fuel byte_pos st) as [[found'|e|] st1];
    cbn [fst] in *; try discriminate;
    try (injection Hend as ->; tauto); try tauto.
  destruct (Hret found' eq_refl) as (data & Hfound & _).
  destruct (get_frame_size_endings net fuel found' data st1 Hfound)
    as [[frame_size Hsize]|[Hsize|Hsize]];
    destruct (get_frame_size net fuel found' st1) as [[frame_size'|e|] st2];
    cbn [fst] in *; try discriminate;
    try (injection Hsize as ->; tauto); tauto.
Qed.

(** X11 -- started on a parsable offset, [download_frame] never raises
    [IndexError] and never [UnboundLocalError], whatever the remote side
    answers: [bin(block_header)] always has a last character, and the
    loop of [get_frame_size] has always run once, and so bound
    [last_pos], when [last_pos] is read. *)
Theorem download_frame_reads_no_missing_value
  (net : remote) (fuel : nat) (byte_pos : string) (offset : Z)
  (loaded : Metadata) (st : state) :
  self st = __init__ loaded ->
  Py.int byte_pos = Some offset ->
  fst (download_frame net fuel byte_pos st) <> Raises IndexError
  /\ fst (download_frame net fuel byte_pos st) <> Raises UnboundLocalError.
Proof.
  intros Hself Hpos.
  destruct (download_frame_endings net fuel _ _ _ st Hself Hpos)
    as [H|[H|[H|[H|H]]]]; rewrite H; split; discriminate.
Qed.

Lemma download_frame_reads_no_missing_value_witness :
  fst (download_frame (serve skippable_then_two_blocks) 2 "0"
         (fresh sample_metadata))
  <> Raises IndexError
  /\ fst (download_frame (serve skippable_then_two_blocks) 2 "0"
            (fresh sample_metadata))
     <> Raises UnboundLocalError.
Proof.
  apply (download_frame_reads_no_missing_value
           (serve skippable_then_two_blocks) 2 "0" 0 sample_metadata
           (fresh sample_metadata));
    reflexivity.
Defined.

(** X12 -- whatever the remote side answers, [find_data_frame] raises its
    exception only over bytes it has read: the last request of the call
    read four bytes at or after the offset given, and they decode to
    neither magic number. *)
Theorem find_data_frame_raises_over_unknown_magic
  (net : remote) (fuel : nat) (byte_pos : string) (offset : Z)
  (loaded : Metadata) (st st' : state) (message : string) :
  self st = __init__ loaded ->
  Py.int byte_pos = Some offset ->
  find_data_frame net fuel byte_pos st = (Raises (Exception_ message), st') ->
  exists at_offset init magic,
    offset <= at_offset
    /\ sent st'
       = sent st ++ init ++ [Range (md_url loaded) at_offset (at_offset + 3)]
    /\ net (List.length (sent st) + List.length init)%nat
           (Range (md_url loaded) at_offset (at_offset + 3))
       = Content magic
    /\ Py.from_bytes_little magic <> 0x184D2A50
    /\ Py.from_bytes_little magic <> 0xFD2FB528.
Proof.
  intros Hself Hpos Hrun.
  destruct (find_data_frame_endings net fuel _ _ _ _ Hself Hpos)
    as [[found Hend]|[Hend|[Hend|[_ Hend]]]];
    rewrite Hrun in Hend; cbn [fst snd] in Hend; try discriminate.
  destruct Hend as (at_offset & init & magic & Hend).
  exists at_offset, init, magic.
  now replace (at_offset + 3) with (at_offset + 4 - 1) by lia.
Qed.

Lemma find_data_frame_raises_over_unknown_magic_witness :
  exists at_offset init magic,
    0 <= at_offset
    /\ sent (sent_more [Range (md_url sample_metadata) 0 3]
               (fresh sample_metadata))
       = sent (fresh sample_metadata)
         ++ init ++ [Range (md_url sample_metadata) at_offset (at_offset + 3)]
    /\ serve near_magic
         (List.length (sent (fresh sample_metadata)) + List.length init)%nat
         (Range (md_url sample_metadata) at_offset (at_offset + 3))
       = Content magic
    /\ Py.from_bytes_little magic <> 0x184D2A50
    /\ Py.from_bytes_little magic <> 0xFD2FB528.
Proof.
  apply (find_data_frame_raises_over_unknown_magic (serve near_magic) 1 "0" 0
           sample_metadata (fresh sample_metadata)
           (sent_more [Range (md_url sample_metadata) 0 3]
              (fresh sample_metadata))
           "Could not find frame magic number in zstd file.");
    reflexivity.
Defined.
